(** * Timecode parsing, caption lookup, subtitle export and request
      supersession of the media-annotation viewer

    A shallow embedding of [utils.ts] ([timeToSecs], [formatSrtTime],
    [generateSrt], [formatCopyToClipboard]), of the playback handlers of
    [VideoPlayer.tsx] ([updateTime], the [url] and [requestedTimecode]
    effects, the marker percentages, the scrubber, volume and mute), of the
    request protocol and the upload handler of [App.tsx] ([onModeSelect],
    [handleCancel], [handleFileUpload]), of [uploadFile] of [api.ts] and of
    the file name built by [ActionToolbar.tsx].

    JavaScript numbers are IEEE 754 binary64 values; they are embedded as
    [spec_float] at precision 53 and exponent bound 1024, with the
    operations of the Standard Library's [SpecFloat], which round to
    nearest, ties to even, as the language does.  Strings are byte strings
    holding the UTF-8 encoding of the text.

    The media element is the browser's: an assignment to its
    [currentTime] is embedded after the HTML Standard, which refuses a
    value that is not finite and ends a seek within the media.  Handlers
    that suspend at an [await] are embedded as the steps they take, so that
    other handlers run between them. *)

From Stdlib Require Import ZArith List String Ascii Bool Lia Sorted.
From Stdlib Require Import DecimalString DecimalN.
From Stdlib.Floats Require Import SpecFloat.
Import ListNotations.

Local Open Scope string_scope.
Local Open Scope Z_scope.

(** ** The host language: numbers *)

Module JS.

(** A number of the language is a value of this type in canonical form
    ([valid_binary]); there is one NaN. *)
Definition number := spec_float.

Definition prec : Z := 53.
Definition emax : Z := 1024.

Definition NaN : number := S754_nan.
Definition Infinity : number := S754_infinity false.
Definition negInfinity : number := S754_infinity true.
Definition zero : number := S754_zero false.

(** The number an integer literal denotes. *)
Definition ofZ (z : Z) : number := binary_normalize prec emax z 0 false.

Definition add : number -> number -> number := SFadd prec emax.
Definition sub : number -> number -> number := SFsub prec emax.
Definition mul : number -> number -> number := SFmul prec emax.
Definition div : number -> number -> number := SFdiv prec emax.
Definition leb : number -> number -> bool := SFleb.
Definition ltb : number -> number -> bool := SFltb.

(** Global [isNaN] on a number. *)
Definition isNaN (x : number) : bool :=
  match x with S754_nan => true | _ => false end.

(** [ToBoolean] on a number: NaN, +0 and -0 are falsy. *)
Definition truthy (x : number) : bool :=
  match x with
  | S754_nan | S754_zero _ => false
  | _ => true
  end.

(** [a || b] on numbers. *)
Definition or (a b : number) : number := if truthy a then a else b.

(** The exact value of a finite number as an integer times a power of
    two: [(m, e)] stands for [m * 2^e]. *)
Definition dyadic (s : bool) (m : positive) (e : Z) : Z * Z :=
  (cond_Zopp s (Zpos m), e).

(** [Math.floor]. *)
Definition floor (x : number) : number :=
  match x with
  | S754_finite s m e =>
      if 0 <=? e then x
      else
        let q := Z.shiftr (cond_Zopp s (Zpos m)) (- e) in
        binary_normalize prec emax q 0 s
  | _ => x
  end.

(** [x % y]: the remainder of the truncating division, with the sign of
    the dividend; it is exact. *)
Definition rem (x y : number) : number :=
  match x, y with
  | S754_nan, _ | _, S754_nan => S754_nan
  | S754_infinity _, _ => S754_nan
  | _, S754_zero _ => S754_nan
  | _, S754_infinity _ => x
  | S754_zero _, _ => x
  | S754_finite sx mx ex, S754_finite _ my ey =>
      let e := Z.min ex ey in
      let X := Z.shiftl (Zpos mx) (ex - e) in
      let Y := Z.shiftl (Zpos my) (ey - e) in
      binary_normalize prec emax (cond_Zopp sx (X mod Y)) e sx
  end.

(** The number nearest to [m * 10^t], for [m > 0]: the value of a decimal
    literal with digits [m] and decimal exponent [t]. *)
Definition ofDecimal (s : bool) (m : positive) (t : Z) : number :=
  if 0 <=? t then binary_normalize prec emax (cond_Zopp s (Zpos m * 10 ^ t)) 0 s
  else
    let '(q, e, l) := SFdiv_core_binary prec emax (Zpos m) 0 (10 ^ (- t)) 0 in
    binary_round_aux prec emax s q e l.

(** *** Strings *)

Definition includes (s : string) (c : ascii) : bool :=
  existsb (Ascii.eqb c) (list_ascii_of_string s).

(** [s.split(c)] for a one-character separator. *)
Fixpoint split (c : ascii) (s : string) : list string :=
  match s with
  | EmptyString => [EmptyString]
  | String a r =>
      if Ascii.eqb a c then EmptyString :: split c r
      else match split c r with
           | h :: t => String a h :: t
           | [] => [String a EmptyString]
           end
  end.

(** [parts.join(sep)]. *)
Definition join (sep : string) (parts : list string) : string :=
  String.concat sep parts.

Fixpoint repeatChar (c : ascii) (n : nat) : string :=
  match n with
  | O => EmptyString
  | S k => String c (repeatChar c k)
  end.

(** [s.padStart(n, '0')]. *)
Definition padStart0 (n : nat) (s : string) : string :=
  (repeatChar "0" (n - String.length s) ++ s)%string.

(** The decimal numeral of a non-negative integer. *)
Definition decimal (z : Z) : string :=
  NilZero.string_of_uint (N.to_uint (Z.to_N z)).

(** *** [parseFloat] *)

Definition isDigit (c : ascii) : bool :=
  let n := N_of_ascii c in (48 <=? n)%N && (n <=? 57)%N.

Definition digitVal (c : ascii) : Z := Z.of_N (N_of_ascii c) - 48.

(** The longest run of decimal digits at the head of a string, and what
    follows it. *)
Fixpoint spanDigits (s : string) : list ascii * string :=
  match s with
  | String c r =>
      if isDigit c then let '(ds, rest) := spanDigits r in (c :: ds, rest)
      else ([], s)
  | EmptyString => ([], s)
  end.

Definition digitsValue (ds : list ascii) : Z :=
  fold_left (fun acc c => 10 * acc + digitVal c) ds 0.

(** One-byte white space and line terminators: TAB, LF, VT, FF, CR, SP. *)
Definition isSpace1 (n : N) : bool :=
  ((9 <=? n) && (n <=? 13) || (n =? 32))%N.

(** Three-byte encodings of U+1680, U+2000..U+200A, U+2028, U+2029, U+202F,
    U+205F, U+3000 and U+FEFF. *)
Definition isSpace3 (a b c : N) : bool :=
  ((a =? 225) && (b =? 154) && (c =? 128)
   || (a =? 226) && (b =? 128)
      && ((128 <=? c) && (c <=? 138) || (c =? 168) || (c =? 169) || (c =? 175))
   || (a =? 226) && (b =? 129) && (c =? 159)
   || (a =? 227) && (b =? 128) && (c =? 128)
   || (a =? 239) && (b =? 187) && (c =? 191))%N.

(** Removal of leading white space (U+00A0 is the two bytes C2 A0). *)
Fixpoint trimStart (s : string) : string :=
  match s with
  | String c1 r1 =>
      let n1 := N_of_ascii c1 in
      if isSpace1 n1 then trimStart r1
      else
        match r1 with
        | String c2 r2 =>
            let n2 := N_of_ascii c2 in
            if ((n1 =? 194) && (n2 =? 160))%N then trimStart r2
            else
              match r2 with
              | String c3 r3 =>
                  if isSpace3 n1 n2 (N_of_ascii c3) then trimStart r3 else s
              | EmptyString => s
              end
        | EmptyString => s
        end
  | EmptyString => s
  end.

(** The value of an exponent part at the head of [s], or 0 when [s] does
    not begin with one: an exponent indicator counts only when digits
    follow it. *)
Definition exponentPart (s : string) : Z :=
  match s with
  | String c r =>
      if Ascii.eqb c "e" || Ascii.eqb c "E" then
        let '(neg, r') :=
          match r with
          | String "-" q => (true, q)
          | String "+" q => (false, q)
          | _ => (false, r)
          end in
        match fst (spanDigits r') with
        | [] => 0
        | ds => cond_Zopp neg (digitsValue ds)
        end
      else 0
  | EmptyString => 0
  end.

(** [parseFloat]: leading white space is dropped, the longest prefix that
    is a decimal literal is read and the rest ignored; NaN when there is
    no such prefix. *)
Definition parseFloat (input : string) : number :=
  let s := trimStart input in
  let '(neg, s1) :=
    match s with
    | String "-" r => (true, r)
    | String "+" r => (false, r)
    | _ => (false, s)
    end in
  if String.prefix "Infinity" s1 then S754_infinity neg
  else
    let '(ip, s2) := spanDigits s1 in
    let '(fp, s3) :=
      match s2 with
      | String "." r => spanDigits r
      | _ => ([], s2)
      end in
    match ip, fp with
    | [], [] => NaN
    | _, _ =>
        let t := exponentPart s3 - Z.of_nat (List.length fp) in
        match digitsValue (ip ++ fp) with
        | Zpos m => ofDecimal neg m t
        | _ => S754_zero neg
        end
    end.

(** *** [Number.prototype.toString] *)

(** The number of decimal digits of a positive integer. *)
Definition decLength (z : Z) : Z := Z.of_nat (String.length (decimal z)).

(** For [0 < num/den], the [n] with [10^(n-1) <= num/den < 10^n]. *)
Definition decExponent (num den : Z) : Z :=
  if den <=? num then decLength (num / den)
  else
    let k0 := decLength den - decLength num in
    let k := if den <=? num * 10 ^ k0 then k0 else k0 + 1 in
    1 - k.

(** [floor (num/den / 10^t)]. *)
Definition scaledFloor (num den t : Z) : Z :=
  if 0 <=? t then num / (den * 10 ^ t) else (num * 10 ^ (- t)) / den.

(** Whether the decimal [s * 10^t] reads back as [x]. *)
Definition readsBack (x : number) (s t : Z) : bool :=
  match s with
  | Zpos p => SFeqb (ofDecimal false p t) x
  | _ => false
  end.

(** Among the decimals with [k] digits, the one that reads back as [x] and
    is nearest to it (the even one on a tie), with its exponent [n]. *)
Definition shortestAt (x : number) (num den n k : Z) : option (Z * Z) :=
  let t := n - k in
  let lo := scaledFloor num den t in
  let hi := lo + 1 in
  let pick s :=
    if s =? 10 ^ k then Some (10 ^ (k - 1), n + 1) else Some (s, n) in
  match readsBack x lo t, readsBack x hi t with
  | false, false => None
  | true, false => pick lo
  | false, true => pick hi
  | true, true =>
      (* compare 2 * num/den with (lo + hi) * 10^t *)
      let l := if 0 <=? t then 2 * num else 2 * num * 10 ^ (- t) in
      let r := if 0 <=? t then (lo + hi) * 10 ^ t * den else (lo + hi) * den in
      match l ?= r with
      | Lt => pick lo
      | Gt => pick hi
      | Eq => if Z.even lo then pick lo else pick hi
      end
  end.

Fixpoint shortestFrom (fuel : nat) (x : number) (num den n k : Z) : Z * Z * Z :=
  match fuel with
  | O => (0, n, k)
  | S f =>
      match shortestAt x num den n k with
      | Some (s, n') => (s, n', k)
      | None => shortestFrom f x num den n (k + 1)
      end
  end.

(** The digits [s], their count [k] and the exponent [n] of the shortest
    decimal that reads back as the positive finite number [m * 2^e]. *)
Definition shortest (m : positive) (e : Z) : Z * Z * Z :=
  let num := if 0 <=? e then Zpos m * 2 ^ e else Zpos m in
  let den := if 0 <=? e then 1 else 2 ^ (- e) in
  shortestFrom 17 (S754_finite false m e) num den (decExponent num den) 1.

Definition formatDigits (s n k : Z) : string :=
  let ds := decimal s in
  let mark := if 0 <=? n - 1 then "e+" else "e-" in
  let expo := (mark ++ decimal (Z.abs (n - 1)))%string in
  if (k <=? n) && (n <=? 21) then
    (ds ++ repeatChar "0" (Z.to_nat (n - k)))%string
  else if (0 <? n) && (n <=? 21) then
    (substring 0 (Z.to_nat n) ds ++ "."
     ++ substring (Z.to_nat n) (Z.to_nat (k - n)) ds)%string
  else if (-6 <? n) && (n <=? 0) then
    ("0." ++ repeatChar "0" (Z.to_nat (- n)) ++ ds)%string
  else if k =? 1 then (ds ++ expo)%string
  else
    (substring 0 1 ds ++ "." ++ substring 1 (Z.to_nat (k - 1)) ds
     ++ expo)%string.

(** [x.toString()] in radix 10. *)
Definition toString (x : number) : string :=
  match x with
  | S754_nan => "NaN"
  | S754_zero _ => "0"
  | S754_infinity s => if s then "-Infinity" else "Infinity"
  | S754_finite sg m e =>
      let '(s, n, k) := shortest m e in
      let minus := if sg then "-" else "" in
      (minus ++ formatDigits s n k)%string
  end.

End JS.

(** ** Data model *)

(** Modelled from the spec: the declarations of [types.ts] are not among
    the sources.  A timecode's [time] is a string or a number (the
    parameter type of [timeToSecs]); an annotation record is one of three
    shapes sharing [time]: text, text with objects, numeric value. *)
Inductive TimeValue :=
| TimeStr (s : string)
| TimeNum (x : JS.number).

(** Modelled from the spec: [TextTimecode] of [types.ts], a record with a
    time and a text. *)
Record TextTimecode := { time : TimeValue; text : string }.

(** Modelled from the spec: [Timecode] of [types.ts], the union of the text,
    object and value shapes; the first two carry a [text] property. *)
Inductive Timecode :=
| TText (r : TextTimecode)
| TObject (r : TextTimecode) (objects : list string)
| TValue (vtime : TimeValue) (value : JS.number).

(** [item.time] *)
Definition timeOf (item : Timecode) : TimeValue :=
  match item with
  | TText r | TObject r _ => time r
  | TValue t _ => t
  end.

(** ['text' in item ? item.text : null] *)
Definition textOf (item : Timecode) : option string :=
  match item with
  | TText r | TObject r _ => Some (text r)
  | TValue _ _ => None
  end.

(** ** utils.ts *)

Definition nl : string := String (ascii_of_nat 10) EmptyString.

(** [xs[i]] read as a number: a missing element is [undefined], which
    arithmetic turns into NaN. *)
Definition at_ (xs : list JS.number) (i : nat) : JS.number := nth i xs JS.NaN.

(** [timeToSecs].  [map(parseFloat)] passes the index as a second argument,
    which [parseFloat] ignores. *)
Definition timeToSecs (timecode : TimeValue) : JS.number :=
  match timecode with
  | TimeNum x => x
  | TimeStr s =>
      if negb (JS.includes s ":") then JS.parseFloat s
      else
        let split := map JS.parseFloat (JS.split ":" s) in
        if existsb JS.isNaN split then JS.zero
        else if (List.length split =? 2)%nat then
          JS.add (JS.mul (at_ split 0) (JS.ofZ 60)) (at_ split 1)
        else
          JS.add (JS.add (JS.mul (at_ split 0) (JS.ofZ 3600))
                         (JS.mul (at_ split 1) (JS.ofZ 60)))
                 (at_ split 2)
  end.

Definition formatSrtTime (secs : JS.number) : string :=
  let hours := JS.floor (JS.div secs (JS.ofZ 3600)) in
  let minutes := JS.floor (JS.div (JS.rem secs (JS.ofZ 3600)) (JS.ofZ 60)) in
  let seconds := JS.floor (JS.rem secs (JS.ofZ 60)) in
  let milliseconds :=
    JS.floor (JS.mul (JS.sub secs (JS.floor secs)) (JS.ofZ 1000)) in
  (JS.padStart0 2 (JS.toString hours) ++ ":"
   ++ JS.padStart0 2 (JS.toString minutes) ++ ":"
   ++ JS.padStart0 2 (JS.toString seconds) ++ ","
   ++ JS.padStart0 3 (JS.toString milliseconds))%string.

(** [xs.map((item, index) => f index item)], the indices counted from [i]. *)
Fixpoint mapi_from {A B : Type} (i : nat) (f : nat -> A -> B) (xs : list A)
  : list B :=
  match xs with
  | [] => []
  | x :: r => f i x :: mapi_from (S i) f r
  end.

Definition mapi {A B : Type} (f : nat -> A -> B) (xs : list A) : list B :=
  mapi_from 0 f xs.

(** One block of the subtitle document, from its 1-based number and its
    two ends. *)
Definition srtBlock (number : Z) (startTime endTime : JS.number) (txt : string)
  : string :=
  (JS.decimal number ++ nl
   ++ formatSrtTime startTime ++ " --> " ++ formatSrtTime endTime ++ nl
   ++ txt ++ nl)%string.

(** [generateSrt].  An index is an integer below 2^32, so [index + 1] is
    exact and prints as its decimal numeral.  The read of
    [timecodes[index + 1]] is guarded by [index < timecodes.length - 1]; the
    [None] branch stands for the unguarded read, which the guard excludes. *)
Definition generateSrt (timecodes : list TextTimecode)
  (totalDuration : JS.number) : string :=
  JS.join nl
    (mapi
       (fun index item =>
          let startTime := timeToSecs (time item) in
          let endTime :=
            if Z.of_nat index <? Z.of_nat (List.length timecodes) - 1 then
              match nth_error timecodes (index + 1) with
              | Some next => timeToSecs (time next)
              | None => JS.NaN
              end
            else totalDuration in
          srtBlock (Z.of_nat index + 1) startTime endTime (text item))
       timecodes).

(** ** VideoPlayer.tsx *)

(** [formatTime], the on-screen clock. *)
Definition formatTime (t : JS.number) : string :=
  (JS.toString (JS.floor (JS.div t (JS.ofZ 60))) ++ ":"
   ++ JS.padStart0 2 (JS.toString (JS.floor (JS.rem t (JS.ofZ 60)))))%string.

(** The properties of the media element the player reads and writes.  The
    element is the browser's [HTMLVideoElement]; [mediaDuration] is NaN
    while it holds no media data and [currentTime] is what a later read of
    the property gives. *)
Record MediaElement := {
  currentTime : JS.number;
  mediaDuration : JS.number;
  mediaVolume : JS.number;
  mediaMuted : bool
}.

(** How a statement ends: normally, or by throwing a [TypeError]. *)
Inductive Completion (A : Type) :=
| Normal (a : A)
| Throws.

Arguments Normal {A} a.
Arguments Throws {A}.

(** A number other than NaN and the two infinities. *)
Definition isFinite (x : JS.number) : bool :=
  match x with
  | S754_zero _ | S754_finite _ _ _ => true
  | _ => false
  end.

(** The position a seek to [t] ends at on an element that holds media
    data: a position past the end of the media becomes the end, then one
    before the start becomes the start.  The media is a file behind an
    object URL: it starts at 0 and can be sought throughout. *)
Definition seekPosition (t : JS.number) (v : MediaElement) : JS.number :=
  let t1 := if JS.ltb (mediaDuration v) t then mediaDuration v else t in
  if JS.ltb t1 JS.zero then JS.zero else t1.

(** The element's side of [videoRef.current.currentTime = t], after the
    HTML Standard: the property is a [double], which the binding refuses
    with a [TypeError] when the value is NaN or infinite; an element with
    no media data keeps the value as the position to start from, and reads
    it back unless it is zero; any other element seeks to it. *)
Definition setCurrentTime (t : JS.number) (v : MediaElement)
  : Completion MediaElement :=
  if negb (isFinite t) then Throws
  else
    let position :=
      if JS.isNaN (mediaDuration v) then
        if JS.truthy t then t else JS.zero
      else seekPosition t v in
    Normal {| currentTime := position; mediaDuration := mediaDuration v;
              mediaVolume := mediaVolume v; mediaMuted := mediaMuted v |}.

(** The component's state cells. *)
Record PlayerState := {
  duration : JS.number;
  scrubberTime : JS.number;
  isPlaying : bool;
  isScrubbing : bool;
  volume : JS.number;
  isMuted : bool;
  currentCaption : option string
}.

Definition setScrubberTime (x : JS.number) (st : PlayerState) : PlayerState :=
  {| duration := duration st; scrubberTime := x; isPlaying := isPlaying st;
     isScrubbing := isScrubbing st; volume := volume st; isMuted := isMuted st;
     currentCaption := currentCaption st |}.

Definition setIsPlaying (b : bool) (st : PlayerState) : PlayerState :=
  {| duration := duration st; scrubberTime := scrubberTime st; isPlaying := b;
     isScrubbing := isScrubbing st; volume := volume st; isMuted := isMuted st;
     currentCaption := currentCaption st |}.

Definition setIsScrubbing (b : bool) (st : PlayerState) : PlayerState :=
  {| duration := duration st; scrubberTime := scrubberTime st;
     isPlaying := isPlaying st; isScrubbing := b; volume := volume st;
     isMuted := isMuted st; currentCaption := currentCaption st |}.

Definition setCurrentCaption (c : option string) (st : PlayerState)
  : PlayerState :=
  {| duration := duration st; scrubberTime := scrubberTime st;
     isPlaying := isPlaying st; isScrubbing := isScrubbing st;
     volume := volume st; isMuted := isMuted st; currentCaption := c |}.

Definition setDuration (d : JS.number) (st : PlayerState) : PlayerState :=
  {| duration := d; scrubberTime := scrubberTime st; isPlaying := isPlaying st;
     isScrubbing := isScrubbing st; volume := volume st; isMuted := isMuted st;
     currentCaption := currentCaption st |}.

(** [duration * scrubberTime || 0] and [scrubberTime * 100]. *)
Definition currentSecs (st : PlayerState) : JS.number :=
  JS.or (JS.mul (duration st) (scrubberTime st)) JS.zero.

Definition currentPercent (st : PlayerState) : JS.number :=
  JS.mul (scrubberTime st) (JS.ofZ 100).

(** [videoRef.current.currentTime / videoRef.current.duration || 0] *)
Definition playedFraction (v : MediaElement) : JS.number :=
  JS.or (JS.div (currentTime v) (mediaDuration v)) JS.zero.

(** The left offset of a marker: [(secs / duration) * 100]. *)
Definition markerPct (dur : JS.number) (item : Timecode) : JS.number :=
  JS.mul (JS.div (timeToSecs (timeOf item)) dur) (JS.ofZ 100).

(** How a run of the search loop ends. *)
Inductive LoopEnd :=
| Returned (bestIndex : Z)
| TypeError      (* a read of [.time] on a missing element *)
| Unfinished.    (* the iteration budget of the model ran out *)

Definition secsOf (item : Timecode) : JS.number := timeToSecs (timeOf item).

(** The [while (low <= high)] loop of [updateTime]. *)
Fixpoint searchLoop (fuel : nat) (timecodeList : list Timecode)
  (now : JS.number) (low high bestIndex : Z) : LoopEnd :=
  if low <=? high then
    match fuel with
    | O => Unfinished
    | S fuel' =>
        let mid := (low + high) / 2 in
        match nth_error timecodeList (Z.to_nat mid) with
        | None => TypeError
        | Some item =>
            let midTime := secsOf item in
            if JS.leb midTime now then
              searchLoop fuel' timecodeList now (mid + 1) high mid
            else
              searchLoop fuel' timecodeList now low (mid - 1) bestIndex
        end
    end
  else Returned bestIndex.

(** The loop started as [updateTime] starts it; one iteration per element
    is more than it takes. *)
Definition findBestIndex (timecodeList : list Timecode) (now : JS.number)
  : LoopEnd :=
  searchLoop (List.length timecodeList) timecodeList now
    0 (Z.of_nat (List.length timecodeList) - 1) (-1).

(** The record the lookup selects, if any. *)
Definition activeRecord (timecodeList : list Timecode) (now : JS.number)
  : option Timecode :=
  match findBestIndex timecodeList now with
  | Returned best =>
      if best =? -1 then None else nth_error timecodeList (Z.to_nat best)
  | _ => None
  end.

(** [updateTime], the handler of the element's time-update event. *)
Definition updateTime (video : option MediaElement)
  (timecodeList : option (list Timecode)) (st : PlayerState) : PlayerState :=
  match video with
  | None => st
  | Some v =>
      let st1 :=
        if negb (isScrubbing st) then setScrubberTime (playedFraction v) st
        else st in
      match timecodeList with
      | Some l =>
          if (0 <? List.length l)%nat then
            match findBestIndex l (currentTime v) with
            | Returned best =>
                let newCaption :=
                  if negb (best =? -1) then
                    match nth_error l (Z.to_nat best) with
                    | Some current => textOf current
                    | None => None
                    end
                  else None in
                setCurrentCaption newCaption st1
            | _ => st1
            end
          else setCurrentCaption None st1
      | None => setCurrentCaption None st1
      end
  end.

Definition updateDuration (video : option MediaElement) (st : PlayerState)
  : PlayerState :=
  let newDuration :=
    match video with
    | Some v => JS.or (mediaDuration v) JS.zero
    | None => JS.zero
    end in
  setDuration newDuration st.

Definition onPlay : PlayerState -> PlayerState := setIsPlaying true.
Definition onPause : PlayerState -> PlayerState := setIsPlaying false.
Definition onPointerDown : PlayerState -> PlayerState := setIsScrubbing true.
Definition onPointerUp : PlayerState -> PlayerState := setIsScrubbing false.

(** The scrubber's [onChange], with the slider's [valueAsNumber].  The
    state setter is called before the assignment to the element, so the
    scrubber position is stored also when the assignment throws. *)
Definition onScrub (newScrubberTime : JS.number)
  (video : option MediaElement) (st : PlayerState)
  : Completion (option MediaElement) * PlayerState :=
  (match video with
   | Some v =>
       match setCurrentTime (JS.mul newScrubberTime (duration st)) v with
       | Normal v' => Normal (Some v')
       | Throws => Throws
       end
   | None => Normal None
   end,
   setScrubberTime newScrubberTime st).

(** The effect that runs when [url] changes. *)
Definition onUrlChange (st : PlayerState) : PlayerState :=
  setCurrentCaption None (setIsPlaying false (setScrubberTime JS.zero st)).

(** Two numbers are the same value, sign of zero included: [Object.is]
    on numbers. *)
Definition sameNumber (x y : JS.number) : bool :=
  match x, y with
  | S754_zero a, S754_zero b => Bool.eqb a b
  | S754_infinity a, S754_infinity b => Bool.eqb a b
  | S754_nan, S754_nan => true
  | S754_finite a m e, S754_finite b m' e' =>
      Bool.eqb a b && Pos.eqb m m' && Z.eqb e e'
  | _, _ => false
  end.






(** A run of time-update events: at each, the element and the list the
    handler sees. *)
Definition ticks (events : list (option MediaElement * option (list Timecode)))
  (st : PlayerState) : PlayerState :=
  fold_left (fun s ev => updateTime (fst ev) (snd ev) s) events st.

(** What a drag of the scrubber is made of, between the pointer going
    down and going up: time-updates of the element and moves of the
    slider, in any order. *)
Inductive DragEvent :=
| TimeUpdate (video : option MediaElement)
    (timecodeList : option (list Timecode))
| SliderMoved (newScrubberTime : JS.number) (video : option MediaElement).

Definition dragStep (st : PlayerState) (ev : DragEvent) : PlayerState :=
  match ev with
  | TimeUpdate video timecodeList => updateTime video timecodeList st
  | SliderMoved x video => snd (onScrub x video st)
  end.

Definition drag (events : list DragEvent) (st : PlayerState) : PlayerState :=
  fold_left dragStep events st.

(** *** The linear scan the lookup is compared with *)

(** The index of the last record whose time is at most [now], or [-1]. *)
Fixpoint linearScanFrom (i best : Z) (timecodeList : list Timecode)
  (now : JS.number) : Z :=
  match timecodeList with
  | [] => best
  | item :: rest =>
      linearScanFrom (i + 1) (if JS.leb (secsOf item) now then i else best)
        rest now
  end.

Definition linearScan (timecodeList : list Timecode) (now : JS.number) : Z :=
  linearScanFrom 0 (-1) timecodeList now.

(** Ascending order of a list of records by parsed time. *)
Definition timeLe (a b : Timecode) : Prop :=
  JS.leb (secsOf a) (secsOf b) = true.

Definition ascending (timecodeList : list Timecode) : Prop :=
  Sorted timeLe timecodeList.

(** ** App.tsx: annotation requests *)

Module App.

(** What [generateContent] resolves with, as far as [onModeSelect] reads
    it.  [args.timecodes] is taken at the type the code casts it to. *)
Record FunctionCall := {
  name : option string;
  args : option (list Timecode)
}.

Record Response := {
  functionCalls : option (list FunctionCall);
  responseText : option string
}.

(** How an awaited [generateContent] settles: with a response, or by
    throwing (an [Error] carries a message). *)
Inductive Settled :=
| Resolved (resp : Response)
| Rejected (message : option string).

Record UploadedFile := { uri : string; mimeType : string }.

Record AppState := {
  file : option UploadedFile;
  timecodeList : option (list Timecode);
  textResponse : option string;
  apiError : option string;
  isLoading : bool;
  activeMode : option string;
  chartLabel : string;
  selectedMode : string;
  chartMode : string;
  chartPrompt : string;
  latestRequestRef : Z
}.

Definition setResults (tl : option (list Timecode)) (tr err : option string)
  (st : AppState) : AppState :=
  {| file := file st; timecodeList := tl; textResponse := tr; apiError := err;
     isLoading := isLoading st; activeMode := activeMode st;
     chartLabel := chartLabel st; selectedMode := selectedMode st;
     chartMode := chartMode st; chartPrompt := chartPrompt st;
     latestRequestRef := latestRequestRef st |}.

Definition setTimecodeList (tl : option (list Timecode)) (st : AppState) :=
  setResults tl (textResponse st) (apiError st) st.

Definition setTextResponse (tr : option string) (st : AppState) :=
  setResults (timecodeList st) tr (apiError st) st.

Definition setApiError (err : option string) (st : AppState) :=
  setResults (timecodeList st) (textResponse st) err st.

Definition setIsLoading (b : bool) (st : AppState) : AppState :=
  {| file := file st; timecodeList := timecodeList st;
     textResponse := textResponse st; apiError := apiError st;
     isLoading := b; activeMode := activeMode st;
     chartLabel := chartLabel st; selectedMode := selectedMode st;
     chartMode := chartMode st; chartPrompt := chartPrompt st;
     latestRequestRef := latestRequestRef st |}.

(** The result state the output panel shows. *)
Definition results (st : AppState)
  : option (list Timecode) * option string * option string :=
  (timecodeList st, textResponse st, apiError st).

(** [text.replace(/\\'/g, "'")]: every backslash followed by a quote
    becomes the quote. *)
Fixpoint unescapeQuotes (s : string) : string :=
  match s with
  | String c r =>
      match r with
      | String c' r' =>
          if Ascii.eqb c "\" && Ascii.eqb c' "'"
          then String "'" (unescapeQuotes r')
          else String c (unescapeQuotes r)
      | EmptyString => s
      end
  | EmptyString => s
  end.

Definition sanitize (t : Timecode) : Timecode :=
  match t with
  | TText r => TText {| time := time r; text := unescapeQuotes (text r) |}
  | TObject r os =>
      TObject {| time := time r; text := unescapeQuotes (text r) |} os
  | TValue _ _ => t
  end.

Definition setTimecodes (timecodes : list Timecode) (st : AppState)
  : AppState :=
  setTimecodeList (Some (map sanitize timecodes)) st.

Definition maxRetries : nat := 3.

(** [resp.functionCalls?.[0]] *)
Definition firstCall (resp : Response) : option FunctionCall :=
  match functionCalls resp with
  | Some (c :: _) => Some c
  | _ => None
  end.

Definition nonEmpty (s : option string) : bool :=
  match s with
  | Some (String _ _) => true
  | _ => false
  end.

(** [hasFunctionCall || hasText] *)
Definition responds (resp : Response) : bool :=
  match firstCall resp with
  | Some _ => true
  | None => nonEmpty (responseText resp)
  end.

Definition noValidResponse : string :=
  ("The model didn't return a valid response after multiple attempts. "
   ++ "Please try a different prompt.")%string.

(** The branch on the response, once the request is known to be the
    latest. *)
Definition handleResponse (resp : Response) (st : AppState) : AppState :=
  let byText :=
    if nonEmpty (responseText resp) then setTextResponse (responseText resp) st
    else setApiError (Some noValidResponse) st in
  match firstCall resp with
  | Some call =>
      match name call, args call with
      | Some (String c n), Some timecodes =>
          if String.prefix "set_timecodes" (String c n) then
            setTimecodes timecodes st
          else st
      | _, _ => byText
      end
  | None => byText
  end.

(** A call of [onModeSelect] that is suspended at an [await]. *)
Inductive Phase := AwaitingContent | AwaitingBackoff.

Record Pending := {
  requestId : Z;
  attempt : nat;      (* the loop counter [i] *)
  phase : Phase
}.

(** What resumes a suspended call. *)
Inductive Wake :=
| Content (out : Settled)
| BackoffElapsed.

(** The [finally] block; scrolling the panel is not modelled. *)
Definition finally (requestId : Z) (st : AppState) : AppState :=
  if latestRequestRef st =? requestId then setIsLoading false st else st.

(** The code after the retry loop. *)
Definition afterLoop (requestId : Z) (resp : Response) (st : AppState)
  : AppState :=
  if negb (latestRequestRef st =? requestId) then finally requestId st
  else finally requestId (handleResponse resp st).

(** The [catch] block. *)
Definition catch (requestId : Z) (message : option string) (st : AppState)
  : AppState :=
  if latestRequestRef st =? requestId then
    setApiError
      (Some match message with
            | Some m => m
            | None => "An unknown error occurred."
            end) st
  else st.

(** [onModeSelect(mode)] up to its first [await]; [now] is what
    [Date.now()] returns.  The prompt is built from the mode table and sent
    with the request; it has no part in the result state. *)
Definition onModeSelect (now : Z) (mode : string) (st : AppState)
  : AppState * option Pending :=
  match file st with
  | None =>
      (setApiError (Some "Please upload a video or audio file first.") st, None)
  | Some _ =>
      let isChartMode := String.eqb (selectedMode st) "Chart" in
      let isCustomChartMode :=
        isChartMode && String.eqb (chartMode st) "Custom" in
      let label :=
        if isChartMode then
          if isCustomChartMode then chartPrompt st else chartMode st
        else EmptyString in
      ({| file := file st; timecodeList := None; textResponse := None;
          apiError := None; isLoading := true; activeMode := Some mode;
          chartLabel := label; selectedMode := selectedMode st;
          chartMode := chartMode st; chartPrompt := chartPrompt st;
          latestRequestRef := now |},
       Some {| requestId := now; attempt := 0; phase := AwaitingContent |})
  end.

(** The continuation of a suspended call: the new state, and the call
    again if it suspends once more. *)
Definition resume (k : Pending) (w : Wake) (st : AppState)
  : AppState * option Pending :=
  match phase k, w with
  | AwaitingContent, Content (Rejected message) =>
      (finally (requestId k) (catch (requestId k) message st), None)
  | AwaitingContent, Content (Resolved resp) =>
      if responds resp then (afterLoop (requestId k) resp st, None)
      else if (attempt k <? maxRetries - 1)%nat then
        (st, Some {| requestId := requestId k; attempt := attempt k;
                     phase := AwaitingBackoff |})
      else (afterLoop (requestId k) resp st, None)
  | AwaitingBackoff, BackoffElapsed =>
      if negb (latestRequestRef st =? requestId k) then
        (finally (requestId k) st, None)
      else
        (st, Some {| requestId := requestId k; attempt := S (attempt k);
                     phase := AwaitingContent |})
  | _, _ => (st, Some k)
  end.

(** A suspended call resumed by a run of wake-ups, until it ends. *)
Fixpoint drive (k : Pending) (ws : list Wake) (st : AppState)
  : AppState * option Pending :=
  match ws with
  | [] => (st, Some k)
  | w :: rest =>
      match resume k w st with
      | (st', Some k') => drive k' rest st'
      | (st', None) => (st', None)
      end
  end.

Definition handleCancel (now : Z) (st : AppState) : AppState :=
  setApiError None
    (setIsLoading false
       {| file := file st; timecodeList := timecodeList st;
          textResponse := textResponse st; apiError := apiError st;
          isLoading := isLoading st; activeMode := activeMode st;
          chartLabel := chartLabel st; selectedMode := selectedMode st;
          chartMode := chartMode st; chartPrompt := chartPrompt st;
          latestRequestRef := now |}).

End App.

(** ** utils.ts: the clipboard text *)

Inductive CopyType := Timestamps | TextOnly.

(** A time inside a template literal: a string as it is, a number
    through [toString]. *)
Definition timeString (t : TimeValue) : string :=
  match t with
  | TimeStr s => s
  | TimeNum x => JS.toString x
  end.

(** One line of the copy with timestamps. *)
Definition copyLine (item : TextTimecode) : string :=
  (timeString (time item) ++ " - " ++ text item)%string.

Definition formatCopyToClipboard (timecodes : list TextTimecode)
  (type : CopyType) : string :=
  match type with
  | TextOnly => JS.join nl (map text timecodes)
  | Timestamps => JS.join nl (map copyLine timecodes)
  end.

(** The line feed, and what it means for a string to be one line. *)
Definition lineFeed : ascii := ascii_of_nat 10.

Definition oneLine (s : string) : Prop := JS.includes s lineFeed = false.

(** ** VideoPlayer.tsx: volume and mute *)

Definition setVolume (x : JS.number) (st : PlayerState) : PlayerState :=
  {| duration := duration st; scrubberTime := scrubberTime st;
     isPlaying := isPlaying st; isScrubbing := isScrubbing st; volume := x;
     isMuted := isMuted st; currentCaption := currentCaption st |}.

Definition setIsMuted (b : bool) (st : PlayerState) : PlayerState :=
  {| duration := duration st; scrubberTime := scrubberTime st;
     isPlaying := isPlaying st; isScrubbing := isScrubbing st;
     volume := volume st; isMuted := b; currentCaption := currentCaption st |}.

Definition setMediaVolume (x : JS.number) (v : MediaElement) : MediaElement :=
  {| currentTime := currentTime v; mediaDuration := mediaDuration v;
     mediaVolume := x; mediaMuted := mediaMuted v |}.

Definition setMediaMuted (b : bool) (v : MediaElement) : MediaElement :=
  {| currentTime := currentTime v; mediaDuration := mediaDuration v;
     mediaVolume := mediaVolume v; mediaMuted := b |}.

(** [x === 0] and [x > 0] on numbers. *)
Definition isZero (x : JS.number) : bool := SFeqb x JS.zero.
Definition isPositive (x : JS.number) : bool := JS.ltb JS.zero x.

(** [handleVolumeChange], with the slider's [valueAsNumber]. *)
Definition handleVolumeChange (newVolume : JS.number)
  (video : option MediaElement) (st : PlayerState)
  : option MediaElement * PlayerState :=
  let st1 := setVolume newVolume st in
  match video with
  | Some v =>
      let v1 := setMediaVolume newVolume v in
      if isPositive newVolume && isMuted st then
        (Some (setMediaMuted false v1), setIsMuted false st1)
      else (Some v1, st1)
  | None => (None, st1)
  end.

Definition toggleMute (video : option MediaElement) (st : PlayerState)
  : option MediaElement * PlayerState :=
  match video with
  | None => (None, st)
  | Some v =>
      let newMuted := negb (mediaMuted v) in
      let st1 := setIsMuted newMuted st in
      let v1 := setMediaMuted newMuted v in
      if negb newMuted && isZero (volume st) then
        (Some (setMediaVolume (JS.ofZ 1) v1), setVolume (JS.ofZ 1) st1)
      else (Some v1, st1)
  end.

(** The icon of the mute button; 0.5 is the literal of the source. *)
Definition volumeIcon (st : PlayerState) : string :=
  if isMuted st || isZero (volume st) then "volume_off"
  else if JS.ltb (volume st) (JS.ofDecimal false 5 (-1)) then "volume_down"
  else "volume_up".

(** The value the volume slider shows: [isMuted ? 0 : volume]. *)
Definition sliderValue (st : PlayerState) : JS.number :=
  if isMuted st then JS.zero else volume st.

(** The player's cells and the element agree on volume and mute. *)
Definition inStep (v : MediaElement) (st : PlayerState) : Prop :=
  mediaVolume v = volume st /\ mediaMuted v = isMuted st.

(** A muted player at volume 0 and its element. *)
Definition silentPlayer : PlayerState :=
  {| duration := JS.ofZ 10; scrubberTime := JS.zero; isPlaying := false;
     isScrubbing := false; volume := JS.zero; isMuted := true;
     currentCaption := None |}.

Definition silentElement : MediaElement :=
  {| currentTime := JS.zero; mediaDuration := JS.ofZ 10;
     mediaVolume := JS.zero; mediaMuted := true |}.

(** ** api.ts: uploadFile *)

(** [Math.min] of two numbers: NaN when either is, and -0 below +0. *)
Definition mathMin (a b : JS.number) : JS.number :=
  match SFcompare a b with
  | None => JS.NaN
  | Some Lt => a
  | Some Gt => b
  | Some Eq => match a with S754_zero true => a | _ => b end
  end.

(** What the two callbacks of [uploadFile] receive. *)
Inductive UploadEvent :=
| Progress (p : JS.number)
| Status (s : string).

(** What an awaited [client.files.get] gives: a file in some state, or a
    rejection. *)
Inductive Poll :=
| InState (state : string)
| PollRejected (message : option string).

(** How a call of [uploadFile] stands after the polls it was given. *)
Inductive UploadEnd :=
| Uploaded                           (* it returned the file *)
| ProcessingFailed                   (* it threw 'File processing failed.' *)
| Rejected (message : option string) (* a request was rejected *)
| StillProcessing.                   (* suspended at the next poll *)

(** The [while (getFile.state === 'PROCESSING')] loop and what follows
    it; [current] is the poll just received, [polls] the ones to come. *)
Fixpoint pollLoop (current : Poll) (polls : list Poll) (progress : JS.number)
  : list UploadEvent * UploadEnd :=
  match current with
  | PollRejected message => ([], Rejected message)
  | InState state =>
      if String.eqb state "PROCESSING" then
        let progress' := mathMin (JS.add progress (JS.ofZ 5)) (JS.ofZ 95) in
        match polls with
        | [] => ([Progress progress'], StillProcessing)
        | next :: rest =>
            let '(events, e) := pollLoop next rest progress' in
            (Progress progress' :: events, e)
        end
      else if String.eqb state "FAILED" then
        ([Progress (JS.ofZ 0)], ProcessingFailed)
      else ([Progress (JS.ofZ 100); Status "Processing complete"], Uploaded)
  end.

(** What the awaited [client.files.upload] gives. *)
Inductive Sent :=
| Accepted
| SendRejected (message : option string).

(** [uploadFile]: [sent] is the answer to the upload itself, [first] and
    [polls] are the answers to the polls that follow, as far as they are
    made. *)
Definition uploadFile (sent : Sent) (first : Poll) (polls : list Poll)
  : list UploadEvent * UploadEnd :=
  match sent with
  | SendRejected message =>
      ([Status "Uploading file..."; Progress (JS.ofZ 10)], Rejected message)
  | Accepted =>
      let '(events, e) := pollLoop first polls (JS.ofZ 50) in
      (([Status "Uploading file..."; Progress (JS.ofZ 10);
         Progress (JS.ofZ 50); Status "Processing media..."]
        ++ events)%list, e)
  end.

(** The progress values among the events, in order. *)
Fixpoint progressOf (events : list UploadEvent) : list JS.number :=
  match events with
  | [] => []
  | Progress p :: rest => p :: progressOf rest
  | Status _ :: rest => progressOf rest
  end.

(** The report that closes an upload. *)
Definition closingReport (e : UploadEnd) : list JS.number :=
  match e with
  | Uploaded => [JS.ofZ 100]
  | ProcessingFailed => [JS.ofZ 0]
  | _ => []
  end.

(** The values the progress takes while the file is processed. *)
Definition ladder : list JS.number :=
  map JS.ofZ [50; 55; 60; 65; 70; 75; 80; 85; 90; 95].

Definition numLe (a b : JS.number) : Prop := JS.leb a b = true.

(** ** App.tsx: uploads *)

(** The file the user chose, as far as [handleFileUpload] reads it. *)
Record BrowserFile := { fileType : string; fileName : string }.

Inductive MediaKind := Video | Audio.

(** The state cells of [App] that belong to the upload. *)
Record UploadCells := {
  vidUrl : option string;
  videoDuration : JS.number;
  mediaType : option MediaKind;
  isLoadingVideo : bool;
  videoError : option string;
  uploadProgress : JS.number;
  uploadStatus : string
}.

Definition setFile (f : option App.UploadedFile) (st : App.AppState)
  : App.AppState :=
  {| App.file := f; App.timecodeList := App.timecodeList st;
     App.textResponse := App.textResponse st; App.apiError := App.apiError st;
     App.isLoading := App.isLoading st; App.activeMode := App.activeMode st;
     App.chartLabel := App.chartLabel st;
     App.selectedMode := App.selectedMode st;
     App.chartMode := App.chartMode st; App.chartPrompt := App.chartPrompt st;
     App.latestRequestRef := App.latestRequestRef st |}.

Definition setVideoError (e : option string) (c : UploadCells) : UploadCells :=
  {| vidUrl := vidUrl c; videoDuration := videoDuration c;
     mediaType := mediaType c; isLoadingVideo := isLoadingVideo c;
     videoError := e; uploadProgress := uploadProgress c;
     uploadStatus := uploadStatus c |}.

Definition setUploadProgress (p : JS.number) (c : UploadCells) : UploadCells :=
  {| vidUrl := vidUrl c; videoDuration := videoDuration c;
     mediaType := mediaType c; isLoadingVideo := isLoadingVideo c;
     videoError := videoError c; uploadProgress := p;
     uploadStatus := uploadStatus c |}.

Definition setUploadStatus (s : string) (c : UploadCells) : UploadCells :=
  {| vidUrl := vidUrl c; videoDuration := videoDuration c;
     mediaType := mediaType c; isLoadingVideo := isLoadingVideo c;
     videoError := videoError c; uploadProgress := uploadProgress c;
     uploadStatus := s |}.

Definition setIsLoadingVideo (b : bool) (c : UploadCells) : UploadCells :=
  {| vidUrl := vidUrl c; videoDuration := videoDuration c;
     mediaType := mediaType c; isLoadingVideo := b;
     videoError := videoError c; uploadProgress := uploadProgress c;
     uploadStatus := uploadStatus c |}.

Definition isVideoFile (f : BrowserFile) : bool :=
  String.prefix "video/" (fileType f).

Definition isAudioFile (f : BrowserFile) : bool :=
  String.prefix "audio/" (fileType f).

Definition invalidFileType : string :=
  "Invalid file type. Please upload a video or audio file.".

(** [handleFileUpload] up to its [await]; [newUrl] is what
    [URL.createObjectURL] returns.  The last component tells whether the
    upload was started. *)
Definition beginUpload (fileToUpload : option BrowserFile) (newUrl : string)
  (st : App.AppState) (c : UploadCells) : App.AppState * UploadCells * bool :=
  match fileToUpload with
  | None => (st, c, false)
  | Some f =>
      if negb (isVideoFile f) && negb (isAudioFile f) then
        (st, setVideoError (Some invalidFileType) c, false)
      else
        (App.setResults None None None (setFile None st),
         {| vidUrl := Some newUrl; videoDuration := JS.zero;
            mediaType := Some (if isVideoFile f then Video else Audio);
            isLoadingVideo := true; videoError := None;
            uploadProgress := JS.zero; uploadStatus := uploadStatus c |},
         true)
  end.

(** The callbacks handed to [uploadFile]. *)
Definition onUploadEvent (c : UploadCells) (ev : UploadEvent) : UploadCells :=
  match ev with
  | Progress p => setUploadProgress p c
  | Status s => setUploadStatus s c
  end.

(** The [finally] block of [handleFileUpload]. *)
Definition uploadFinally (c : UploadCells) : UploadCells :=
  setUploadProgress JS.zero (setIsLoadingVideo false c).

(** What follows the [await] once [uploadFile] has ended; [res] is the
    file it returns. *)
Definition endUpload (e : UploadEnd) (res : App.UploadedFile)
  (st : App.AppState) (c : UploadCells) : App.AppState * UploadCells :=
  match e with
  | Uploaded => (setFile (Some res) st, uploadFinally c)
  | ProcessingFailed =>
      (st, uploadFinally (setVideoError (Some "File processing failed.") c))
  | Rejected message =>
      (st, uploadFinally
             (setVideoError
                (Some match message with
                      | Some m => m
                      | None => "Error processing file."
                      end) c))
  | StillProcessing => (st, c)
  end.

(** ** App.tsx: handlers as steps on the state *)

(** What runs on the cells of [App], one handler or continuation at a
    time: the calls of [handleFileUpload], [onModeSelect] and
    [handleCancel], the callbacks a running [uploadFile] calls, and the
    continuations of the calls suspended at an [await]. *)
Inductive AppEvent :=
| FileChosen (fileToUpload : option BrowserFile) (newUrl : string)
| UploadReports (ev : UploadEvent)
| UploadEnds (e : UploadEnd) (res : App.UploadedFile)
| ModeSelected (now : Z) (mode : string)
| RequestResumes (k : App.Pending) (w : App.Wake)
| CancelClicked (now : Z).

Definition appStep (s : App.AppState * UploadCells) (ev : AppEvent)
  : App.AppState * UploadCells :=
  let '(st, c) := s in
  match ev with
  | FileChosen fileToUpload newUrl =>
      fst (beginUpload fileToUpload newUrl st c)
  | UploadReports report => (st, onUploadEvent c report)
  | UploadEnds e res => endUpload e res st c
  | ModeSelected now mode => (fst (App.onModeSelect now mode st), c)
  | RequestResumes k w => (fst (App.resume k w st), c)
  | CancelClicked now => (App.handleCancel now st, c)
  end.

Definition appRun (trace : list AppEvent) (s : App.AppState * UploadCells)
  : App.AppState * UploadCells :=
  fold_left appStep trace s.

(** The steps that belong to an upload. *)
Definition isUploadStep (ev : AppEvent) : bool :=
  match ev with
  | FileChosen _ _ | UploadReports _ | UploadEnds _ _ => true
  | _ => false
  end.

(** The steps one call of [handleFileUpload] takes, with the answers the
    service gives: the part before the [await], the callbacks [uploadFile]
    calls while the call is suspended, and the part after the [await].
    The call is suspended between two steps, and other handlers run
    there. *)
Definition handleFileUpload (fileToUpload : option BrowserFile)
  (newUrl : string) (res : App.UploadedFile) (sent : Sent) (first : Poll)
  (polls : list Poll) : list AppEvent :=
  match fileToUpload with
  | Some f =>
      if negb (isVideoFile f) && negb (isAudioFile f) then
        [FileChosen fileToUpload newUrl]
      else
        let '(events, e) := uploadFile sent first polls in
        (FileChosen fileToUpload newUrl :: map UploadReports events
         ++ [UploadEnds e res])%list
  | None => [FileChosen fileToUpload newUrl]
  end.

(** ** ActionToolbar.tsx: the name of the downloaded file *)

Definition isUpper (n : N) : bool := ((65 <=? n) && (n <=? 90))%N.

(** [s.toLowerCase()] on the UTF-8 bytes.  The capitals of ASCII become
    small letters; U+0130 (bytes C4 B0) becomes [i] followed by U+0307 and
    U+212A (bytes E2 84 AA) becomes [k]: these are the two characters
    outside ASCII whose lower case holds an ASCII letter.  Every other
    character outside ASCII keeps its bytes here; its lower case lies
    outside ASCII as it does itself. *)
Fixpoint toLowerCase (s : string) : string :=
  match s with
  | String c1 r1 =>
      let n1 := N_of_ascii c1 in
      if isUpper n1 then String (ascii_of_N (n1 + 32)) (toLowerCase r1)
      else
        match r1 with
        | String c2 r2 =>
            let n2 := N_of_ascii c2 in
            if ((n1 =? 196) && (n2 =? 176))%N then
              String "i" (String (ascii_of_N 204) (String (ascii_of_N 135)
                                                     (toLowerCase r2)))
            else
              match r2 with
              | String c3 r3 =>
                  if ((n1 =? 226) && (n2 =? 132)
                      && (N_of_ascii c3 =? 170))%N
                  then String "k" (toLowerCase r3)
                  else String c1 (toLowerCase r1)
              | EmptyString => String c1 (toLowerCase r1)
              end
        | EmptyString => String c1 (toLowerCase r1)
        end
  | EmptyString => EmptyString
  end.

(** [s.replace(/\s+/g, '-')]: every run of white space becomes one
    hyphen; [inRun] tells that the character before was white space. *)
Fixpoint replaceSpaces (inRun : bool) (s : string) : string :=
  match s with
  | String c1 r1 =>
      let n1 := N_of_ascii c1 in
      if JS.isSpace1 n1 then
        if inRun then replaceSpaces true r1
        else String "-" (replaceSpaces true r1)
      else
        match r1 with
        | String c2 r2 =>
            let n2 := N_of_ascii c2 in
            if ((n1 =? 194) && (n2 =? 160))%N then
              if inRun then replaceSpaces true r2
              else String "-" (replaceSpaces true r2)
            else
              match r2 with
              | String c3 r3 =>
                  if JS.isSpace3 n1 n2 (N_of_ascii c3) then
                    if inRun then replaceSpaces true r3
                    else String "-" (replaceSpaces true r3)
                  else String c1 (replaceSpaces false r1)
              | EmptyString => String c1 (replaceSpaces false r1)
              end
        | EmptyString => String c1 (replaceSpaces false r1)
        end
  | EmptyString => EmptyString
  end.

(** A byte of the class [a-z0-9-]. *)
Definition isNameChar (c : ascii) : bool :=
  let n := N_of_ascii c in
  ((97 <=? n) && (n <=? 122) || (48 <=? n) && (n <=? 57) || (n =? 45))%N.

(** [s.replace(/[^a-z0-9-]/g, '')] *)
Fixpoint keepNameChars (s : string) : string :=
  match s with
  | String c r =>
      if isNameChar c then String c (keepNameChars r) else keepNameChars r
  | EmptyString => EmptyString
  end.

(** The base name [handleDownloadSrt] builds from the active mode, which
    may be undefined; the empty string is falsy. *)
Definition baseName (activeMode : option string) : string :=
  match activeMode with
  | Some (String c r) =>
      keepNameChars (replaceSpaces false (toLowerCase (String c r)))
  | _ => "captions"
  end.

Definition srtFileName (activeMode : option string) : string :=
  (baseName activeMode ++ ".srt")%string.

(** Every byte of a string is of the class [a-z0-9-]. *)
Definition nameChars (s : string) : Prop :=
  Forall (fun c => isNameChar c = true) (list_ascii_of_string s).

(** ** OutputPanel.tsx *)

(** [timecodeList?.filter((item) => 'text' in item) || []] *)
Definition textBasedTimecodes (timecodeList : option (list Timecode))
  : list TextTimecode :=
  match timecodeList with
  | Some l =>
      flat_map (fun item =>
                  match item with
                  | TText r | TObject r _ => [r]
                  | TValue _ _ => []
                  end) l
  | None => []
  end.

(** [activeMode !== name], where the active mode may be undefined. *)
Definition modeIsNot (activeMode : option string) (name : string) : bool :=
  match activeMode with
  | Some m => negb (String.eqb m name)
  | None => true
  end.

Definition showActionToolbar (st : App.AppState) : bool :=
  (0 <? List.length (textBasedTimecodes (App.timecodeList st)))%nat
  && modeIsNot (App.activeMode st) "Table"
  && modeIsNot (App.activeMode st) "Chart".

(** [activeMode && modes[activeMode]?.isList], from the table of modes. *)
Definition isListMode (activeMode : option string) : bool :=
  match activeMode with
  | Some m =>
      existsb (String.eqb m)
        ["A/V captions"; "Simple Captions"; "Key moments"; "AI Cut";
         "B-Roll Ideas"; "Sound Cues"]
  | None => false
  end.

(** What [renderContent] returns, by its branch and the data the branch
    renders; the markup itself is not modelled. *)
Inductive PanelView :=
| Waiting
| ShowError (message : string)
| ShowText (t : string)
| ShowTable (rows : list Timecode)
| ShowChart (data : list Timecode)
| ShowList (items : list TextTimecode)
| ShowSentences (items : list TextTimecode)
| ShowNothing.

Definition renderContent (st : App.AppState) : PanelView :=
  if App.isLoading st then Waiting
  else
    match App.apiError st, App.textResponse st, App.timecodeList st with
    | Some (String c e), _, _ => ShowError (String c e)
    | _, Some (String c t), _ => ShowText (String c t)
    | _, _, Some l =>
        if negb (modeIsNot (App.activeMode st) "Table") then ShowTable l
        else if negb (modeIsNot (App.activeMode st) "Chart") then ShowChart l
        else if isListMode (App.activeMode st) then
          ShowList (textBasedTimecodes (Some l))
        else ShowSentences (textBasedTimecodes (Some l))
    | _, _, None => ShowNothing
    end.

(** ** Reference definitions and sample inputs *)

(** Whether the record at position [k] has a time at most [now]. *)
Definition holdsAt (timecodeList : list Timecode) (now : JS.number) (k : nat)
  : bool :=
  match nth_error timecodeList k with
  | Some item => JS.leb (secsOf item) now
  | None => false
  end.

(** [b] is the position of the rightmost record whose time is at most
    [now], or [-1] when there is none. *)
Definition rightmost (timecodeList : list Timecode) (now : JS.number) (b : Z)
  : Prop :=
  (b = -1
   \/ (0 <= b < Z.of_nat (List.length timecodeList)
       /\ holdsAt timecodeList now (Z.to_nat b) = true))
  /\ forall k, b < Z.of_nat k -> holdsAt timecodeList now k = false.

(** Two records at the same time, 5 seconds. *)
Definition recordA : Timecode :=
  TText {| time := TimeNum (JS.ofZ 5); text := "a" |}.

Definition recordB : Timecode :=
  TText {| time := TimeNum (JS.ofZ 5); text := "b" |}.

(** A component of a timecode string holds no colon. *)
Definition colonFree (p : string) : Prop := JS.includes p ":" = false.

(** The timecode string with the given components. *)
Definition timecodeOf (components : list string) : TimeValue :=
  TimeStr (JS.join ":" components).

(** The blocks as the description gives them: each record with the start
    of the record after it as its end, the last with the total duration. *)
Fixpoint srtBlocksFrom (number : Z) (timecodes : list TextTimecode)
  (totalDuration : JS.number) : list string :=
  match timecodes with
  | [] => []
  | item :: rest =>
      srtBlock number (timeToSecs (time item))
        match rest with
        | next :: _ => timeToSecs (time next)
        | [] => totalDuration
        end
        (text item)
      :: srtBlocksFrom (number + 1) rest totalDuration
  end.

(** The block of the record at index [i], if there is one. *)
Definition blockAt (timecodes : list TextTimecode) (totalDuration : JS.number)
  (i : nat) : option string :=
  match nth_error timecodes i with
  | Some item =>
      Some (srtBlock (Z.of_nat i + 1) (timeToSecs (time item))
              match nth_error timecodes (S i) with
              | Some next => timeToSecs (time next)
              | None => totalDuration
              end
              (text item))
  | None => None
  end.

(** The caption a tick computes from the list and the element's time. *)
Definition captionFor (timecodeList : option (list Timecode))
  (now : JS.number) : option string :=
  match timecodeList with
  | Some l =>
      match activeRecord l now with
      | Some current => textOf current
      | None => None
      end
  | None => None
  end.

(** A player in the middle of a scrub, with no caption on screen. *)
Definition scrubbingAtSilence : PlayerState :=
  {| duration := JS.ofZ 10; scrubberTime := JS.zero; isPlaying := true;
     isScrubbing := true; volume := JS.ofZ 1; isMuted := false;
     currentCaption := None |}.

(** A media element at [t] seconds of [d]. *)
Definition elementAt (t d : Z) : MediaElement :=
  {| currentTime := JS.ofZ t; mediaDuration := JS.ofZ d;
     mediaVolume := JS.ofZ 1; mediaMuted := false |}.

(** A call suspended at its first request. *)
Definition firstAttempt (now : Z) : App.Pending :=
  {| App.requestId := now; App.attempt := 0;
     App.phase := App.AwaitingContent |}.

(** The two kinds of response that carry a result. *)
Definition timecodesCall (timecodes : list Timecode) : App.Response :=
  {| App.functionCalls :=
       Some [ {| App.name := Some "set_timecodes";
                 App.args := Some timecodes |} ];
     App.responseText := None |}.

Definition textOnly (t : string) : App.Response :=
  {| App.functionCalls := None; App.responseText := Some t |}.

(** The application with a file uploaded and nothing asked yet. *)
Definition readyToAsk : App.AppState :=
  {| App.file := Some {| App.uri := "files/1"; App.mimeType := "video/mp4" |};
     App.timecodeList := None; App.textResponse := None; App.apiError := None;
     App.isLoading := false; App.activeMode := None; App.chartLabel := "";
     App.selectedMode := "Key moments"; App.chartMode := "Sentiment";
     App.chartPrompt := ""; App.latestRequestRef := 0 |}.

(** At most one of the three results is set. *)
Definition atMostOne
  (r : option (list Timecode) * option string * option string) : Prop :=
  match r with
  | (None, None, None) | (Some _, None, None)
  | (None, Some _, None) | (None, None, Some _) => True
  | _ => False
  end.

(** A response that carries neither a function call nor a text. *)
Definition emptyResponse : App.Response :=
  {| App.functionCalls := None; App.responseText := None |}.

(** A call suspended in a given phase of its attempt [i]. *)
Definition attemptAt (now : Z) (i : nat) (p : App.Phase) : App.Pending :=
  {| App.requestId := now; App.attempt := i; App.phase := p |}.



(** Records at 2, 6 and 10 seconds, as the prompts ask for them. *)
Definition kitchenScenes : list Timecode :=
  [ TText {| time := TimeStr "00:00:02"; text := "A sunlit kitchen counter." |};
    TText {| time := TimeStr "00:00:06";
             text := "Hands chopping vegetables." |};
    TText {| time := TimeStr "00:00:10"; text := "Is dinner ready?" |} ].

(** The upload cells before any file was chosen, and a clip. *)
Definition noUpload : UploadCells :=
  {| vidUrl := None; videoDuration := JS.zero; mediaType := None;
     isLoadingVideo := false; videoError := None; uploadProgress := JS.zero;
     uploadStatus := "" |}.

Definition clip : BrowserFile :=
  {| fileType := "video/mp4"; fileName := "clip.mp4" |}.

Definition uploadedClip : App.UploadedFile :=
  {| App.uri := "files/2"; App.mimeType := "video/mp4" |}.

(** The file cell and the upload cells of a state. *)
Definition uploadView (s : App.AppState * UploadCells)
  : option App.UploadedFile * UploadCells :=
  (App.file (fst s), snd s).

(** The upload of a clip that is processed for two polls, with the answer
    to a request made before it arriving right after the file was
    chosen. *)
Definition answeredWhileUploading : list AppEvent :=
  FileChosen (Some clip) "blob:1"
  :: RequestResumes
       {| App.requestId := 1000; App.attempt := 0;
          App.phase := App.AwaitingContent |}
       (App.Content
          (App.Resolved
             {| App.functionCalls := None;
                App.responseText := Some "About the old file." |}))
  :: List.tl
       (handleFileUpload (Some clip) "blob:1" uploadedClip Accepted
          (InState "PROCESSING") [InState "PROCESSING"; InState "ACTIVE"]).

(** The value of the last move of the slider among the events, or
    [shown] when there is none. *)
Definition lastMoved (events : list DragEvent) (shown : JS.number)
  : JS.number :=
  fold_left
    (fun x ev =>
       match ev with
       | SliderMoved x' _ => x'
       | TimeUpdate _ _ => x
       end)
    events shown.

(** The element of a recording of unknown length, whose duration is
    Infinity, 40 seconds in. *)
Definition liveStream : MediaElement :=
  {| currentTime := JS.ofZ 40; mediaDuration := JS.Infinity;
     mediaVolume := JS.ofZ 1; mediaMuted := false |}.

(** A whole number written with at least two digits. *)
Definition pad2 (z : Z) : string := JS.padStart0 2 (JS.decimal z).

(** The stamp and the clock of a whole number of seconds, in integer
    arithmetic. *)
Definition stampOf (t : Z) : string :=
  (pad2 (t / 3600) ++ ":" ++ pad2 (t mod 3600 / 60) ++ ":" ++ pad2 (t mod 60)
   ++ ",000")%string.

Definition clockOf (t : Z) : string :=
  (JS.decimal (t / 60) ++ ":" ++ pad2 (t mod 60))%string.

(** The checks the two theorems on whole seconds run over their range. *)
Definition stampOk (t : Z) : bool :=
  let s := formatSrtTime (JS.ofZ t) in
  String.eqb s (stampOf t) && sameNumber (timeToSecs (TimeStr s)) (JS.ofZ t).

Definition clockOk (t : Z) : bool :=
  let s := formatTime (JS.ofZ t) in
  String.eqb s (clockOf t) && sameNumber (timeToSecs (TimeStr s)) (JS.ofZ t).

(** [f] holds of every integer from 0 up to [n], [n] left out. *)
Fixpoint below (n : nat) (f : Z -> bool) : bool :=
  match n with
  | O => true
  | S k => f (Z.of_nat k) && below k f
  end.

(** One hour, in seconds. *)
Definition oneHour : Z := 3600.

(** * Properties *)

(** ** The order on numbers *)

Section NumberOrder.

Local Ltac by_compare :=
  repeat match goal with
    | |- context [Z.compare ?a ?b] => destruct (Z.compare_spec a b)
    | |- context [Pos.compare ?a ?b] => destruct (Pos.compare_spec a b)
    end;
  simpl; intros; subst; try reflexivity; try discriminate; try lia.

Lemma leb_trans (x y z : JS.number) :
  JS.leb x y = true -> JS.leb y z = true -> JS.leb x z = true.
Proof.
  unfold JS.leb, SFleb.
  destruct x as [sx|sx| |sx mx ex], y as [sy|sy| |sy my ey],
    z as [sz|sz| |sz mz ez]; simpl;
    try discriminate; try reflexivity;
    try (destruct sx; simpl; try discriminate; try reflexivity);
    try (destruct sy; simpl; try discriminate; try reflexivity);
    try (destruct sz; simpl; try discriminate; try reflexivity);
    auto.
  all: rewrite ?Pos.compare_cont_spec; simpl; by_compare.
Qed.

End NumberOrder.

Section StrictOrder.

Local Ltac by_compare :=
  repeat match goal with
    | |- context [Z.compare ?a ?b] => destruct (Z.compare_spec a b)
    | |- context [Pos.compare ?a ?b] => destruct (Pos.compare_spec a b)
    end;
  simpl; intros; subst; try reflexivity; try discriminate; try lia.









End StrictOrder.

(** ** The caption lookup *)

Section Lookup.

Variable timecodeList : list Timecode.
Variable now : JS.number.

Let n : Z := Z.of_nat (List.length timecodeList).

Lemma holdsAt_in_range k :
  holdsAt timecodeList now k = true -> Z.of_nat k < n.
Proof.
  unfold holdsAt, n. destruct (nth_error timecodeList k) eqn:E; [|discriminate].
  intros _. apply Nat2Z.inj_lt. apply nth_error_Some. congruence.
Qed.

Lemma rightmost_unique b1 b2 :
  rightmost timecodeList now b1 -> rightmost timecodeList now b2 -> b1 = b2.
Proof.
  intros [H1 A1] [H2 A2].
  destruct (Z.lt_trichotomy b1 b2) as [L|[E|L]]; [exfalso| exact E |exfalso].
  - destruct H2 as [->|[R T]]; [destruct H1 as [->|[R1 _]]; lia|].
    rewrite A1 in T; [discriminate|]. rewrite Z2Nat.id; lia.
  - destruct H1 as [->|[R T]]; [destruct H2 as [->|[R2 _]]; lia|].
    rewrite A2 in T; [discriminate|]. rewrite Z2Nat.id; lia.
Qed.

(** The loop ends with [Returned] on every list, ascending or not: the
    element it reads is in range and the interval shrinks at every turn. *)
Lemma searchLoop_returns fuel : forall low high best,
  0 <= low -> high < n -> high - low + 1 <= Z.of_nat fuel ->
  exists b, searchLoop fuel timecodeList now low high best = Returned b.
Proof.
  unfold n.
  induction fuel as [|fuel IH]; intros low high best Hl Hh Hf; simpl.
  - destruct (low <=? high) eqn:C; [apply Z.leb_le in C; lia | eauto].
  - destruct (low <=? high) eqn:C; [apply Z.leb_le in C | eauto].
    assert (M : low <= (low + high) / 2 <= high).
    { split; [apply Z.div_le_lower_bound | apply Z.div_le_upper_bound]; lia. }
    generalize dependent ((low + high) / 2). intros mid M.
    destruct (nth_error timecodeList (Z.to_nat mid)) eqn:E.
    + destruct (JS.leb (secsOf t) now); apply IH; lia.
    + apply nth_error_None in E. lia.
Qed.

Hypothesis downward :
  forall i j, (i <= j)%nat ->
  holdsAt timecodeList now j = true -> holdsAt timecodeList now i = true.

Lemma searchLoop_rightmost fuel : forall low high best,
  0 <= low -> high < n -> low <= high + 1 ->
  high - low + 1 <= Z.of_nat fuel ->
  best = low - 1 ->
  (forall k, Z.of_nat k < low -> holdsAt timecodeList now k = true) ->
  (forall k, high < Z.of_nat k -> holdsAt timecodeList now k = false) ->
  exists b, searchLoop fuel timecodeList now low high best = Returned b
            /\ rightmost timecodeList now b.
Proof.
  unfold rightmost, n.
  induction fuel as [|fuel IH];
    intros low high best Hl Hh Hlh Hf Hb Below Above.
  - simpl. destruct (low <=? high) eqn:C; [apply Z.leb_le in C; lia|].
    apply Z.leb_gt in C. exists best. split; [reflexivity|]. split.
    + destruct (Z.eq_dec low 0) as [->|NZ]; [left; lia | right].
      split; [lia|]. apply Below. rewrite Z2Nat.id; lia.
    + intros k Hk. apply Above. lia.
  - cbn [searchLoop]. destruct (low <=? high) eqn:C.
    2:{ apply Z.leb_gt in C. exists best. split; [reflexivity|]. split.
        - destruct (Z.eq_dec low 0) as [->|NZ]; [left; lia | right].
          split; [lia|]. apply Below. rewrite Z2Nat.id; lia.
        - intros k Hk. apply Above. lia. }
    apply Z.leb_le in C.
    assert (M : low <= (low + high) / 2 <= high).
    { split; [apply Z.div_le_lower_bound | apply Z.div_le_upper_bound]; lia. }
    generalize dependent ((low + high) / 2). intros mid M.
    destruct (nth_error timecodeList (Z.to_nat mid)) as [item|] eqn:E.
    2:{ apply nth_error_None in E. lia. }
    assert (HM : holdsAt timecodeList now (Z.to_nat mid)
                 = JS.leb (secsOf item) now).
    { unfold holdsAt. rewrite E. reflexivity. }
    destruct (JS.leb (secsOf item) now) eqn:L.
    + apply IH; try lia; try assumption.
      intros k Hk. apply (downward k (Z.to_nat mid)); [lia | exact HM].
    + apply IH; try lia; try assumption.
      intros k Hk. destruct (holdsAt timecodeList now k) eqn:T; [|reflexivity].
      rewrite (downward (Z.to_nat mid) k) in HM; [discriminate | lia | exact T].
Qed.

End Lookup.

(** The linear scan finds the rightmost record. *)
Lemma linearScanFrom_spec now : forall timecodeList i best,
  let r := linearScanFrom i best timecodeList now in
  (r = best /\ forall k, holdsAt timecodeList now k = false)
  \/ exists k, r = i + Z.of_nat k /\ holdsAt timecodeList now k = true
               /\ forall k', (k < k')%nat ->
                             holdsAt timecodeList now k' = false.
Proof.
  induction timecodeList as [|item rest IH]; intros i best; simpl.
  - left. split; [reflexivity|]. intros [|k]; reflexivity.
  - destruct (IH (i + 1) (if JS.leb (secsOf item) now then i else best))
      as [[E A]|[k [E [T A]]]].
    + destruct (JS.leb (secsOf item) now) eqn:L.
      * right. exists 0%nat. split; [simpl; lia|]. split.
        { unfold holdsAt; simpl. exact L. }
        intros [|k'] Hk; [lia|]. apply A.
      * left. split; [exact E|]. intros [|k]; [|apply A].
        unfold holdsAt; simpl. exact L.
    + right. exists (S k). split; [lia|]. split; [exact T|].
      intros [|k'] Hk; [lia|]. apply A. lia.
Qed.

Lemma linearScan_rightmost timecodeList now :
  rightmost timecodeList now (linearScan timecodeList now).
Proof.
  unfold linearScan.
  destruct (linearScanFrom_spec now timecodeList 0 (-1))
    as [[E A]|[k [E [T A]]]];
    simpl in E; rewrite E; split.
  - left; reflexivity.
  - intros k _. apply A.
  - right. pose proof (holdsAt_in_range _ _ _ T). split; [lia|].
    rewrite Nat2Z.id. exact T.
  - intros k' Hk. apply A. lia.
Qed.

#[local] Instance timeLe_trans : RelationClasses.Transitive timeLe.
Proof. intros a b c. unfold timeLe. apply leb_trans. Qed.

Lemma ascending_nth timecodeList : ascending timecodeList ->
  forall i j a b, (i < j)%nat ->
  nth_error timecodeList i = Some a -> nth_error timecodeList j = Some b ->
  timeLe a b.
Proof.
  intros S. apply Sorted_StronglySorted in S; [|exact timeLe_trans].
  induction S as [|x l S IH F]; intros i j a b Hij Hi Hj.
  - destruct i; discriminate.
  - destruct j as [|j]; [lia|]. simpl in Hj. destruct i as [|i]; simpl in Hi.
    + injection Hi as <-. rewrite Forall_forall in F. apply F.
      eapply nth_error_In; eassumption.
    + eapply IH; [|eassumption|eassumption]. lia.
Qed.

Lemma ascending_downward timecodeList now : ascending timecodeList ->
  forall i j, (i <= j)%nat ->
  holdsAt timecodeList now j = true -> holdsAt timecodeList now i = true.
Proof.
  intros S i j Hij. destruct (Nat.eq_dec i j) as [->|NE]; [trivial|].
  unfold holdsAt.
  destruct (nth_error timecodeList j) as [b|] eqn:Ej; [|discriminate].
  destruct (nth_error timecodeList i) as [a|] eqn:Ei.
  - intros L. eapply leb_trans; [|exact L].
    eapply (ascending_nth _ S i j); [lia|eassumption|eassumption].
  - apply nth_error_None in Ei.
    assert (j < List.length timecodeList)%nat
      by (apply nth_error_Some; congruence).
    lia.
Qed.

Lemma findBestIndex_returns timecodeList now :
  exists b, findBestIndex timecodeList now = Returned b.
Proof. apply searchLoop_returns; lia. Qed.

Lemma findBestIndex_linearScan timecodeList now : ascending timecodeList ->
  findBestIndex timecodeList now = Returned (linearScan timecodeList now).
Proof.
  intros S.
  destruct (searchLoop_rightmost timecodeList now
              (ascending_downward _ now S) (List.length timecodeList)
              0 (Z.of_nat (List.length timecodeList) - 1) (-1))
    as [b [E R]]; try lia.
  - intros k Hk. destruct (holdsAt timecodeList now k) eqn:T; [|reflexivity].
    apply holdsAt_in_range in T. lia.
  - unfold findBestIndex. rewrite E. f_equal.
    eapply rightmost_unique; [exact R | apply linearScan_rightmost].
Qed.

(** What [updateTime] shows is the text of the record the lookup selects. *)
Lemma updateTime_caption v timecodeList st :
  currentCaption (updateTime (Some v) (Some timecodeList) st) =
  match activeRecord timecodeList (currentTime v) with
  | Some current => textOf current
  | None => None
  end.
Proof.
  unfold updateTime, activeRecord.
  destruct timecodeList as [|item rest].
  - simpl. destruct (isScrubbing st); reflexivity.
  - set (l := item :: rest).
    destruct (findBestIndex_returns l (currentTime v)) as [b ->].
    change (0 <? List.length l)%nat with true. cbv iota.
    destruct (b =? -1); simpl; destruct (isScrubbing st); reflexivity.
Qed.

(** C1.  On every list of records ascending by parsed time and at every
    position, the binary search of [updateTime] ends and returns the index
    the linear scan returns: that of the rightmost record whose time is at
    most the position, [-1] when there is none; the record selected, and
    the caption shown, are those of that index; nothing is selected on the
    empty list or when no record's time is at most the position; and on the
    two records at time 5 with texts a and b, position 5 selects b. *)
Theorem caption_lookup_is_linear_scan :
  (forall timecodeList now, ascending timecodeList ->
     findBestIndex timecodeList now = Returned (linearScan timecodeList now)
     /\ rightmost timecodeList now (linearScan timecodeList now)
     /\ activeRecord timecodeList now =
          (if linearScan timecodeList now =? -1 then None
           else nth_error timecodeList (Z.to_nat (linearScan timecodeList now)))
     /\ (forall v st, currentTime v = now ->
           currentCaption (updateTime (Some v) (Some timecodeList) st) =
           if linearScan timecodeList now =? -1 then None
           else match nth_error timecodeList
                        (Z.to_nat (linearScan timecodeList now)) with
                | Some current => textOf current
                | None => None
                end)
     /\ ((forall item, In item timecodeList ->
            JS.leb (secsOf item) now = false) ->
         activeRecord timecodeList now = None))
  /\ (forall now, activeRecord [] now = None)
  /\ activeRecord [recordA; recordB] (JS.ofZ 5) = Some recordB.
Proof.
  split; [|split; [reflexivity | vm_compute; reflexivity]].
  intros timecodeList now S.
  pose proof (findBestIndex_linearScan timecodeList now S) as E.
  pose proof (linearScan_rightmost timecodeList now) as R.
  assert (A : activeRecord timecodeList now =
              if linearScan timecodeList now =? -1 then None
              else nth_error timecodeList
                     (Z.to_nat (linearScan timecodeList now))).
  { unfold activeRecord. rewrite E. reflexivity. }
  repeat split; try assumption; try apply R.
  - intros v st <-. rewrite updateTime_caption, A.
    destruct (linearScan timecodeList (currentTime v) =? -1); reflexivity.
  - intros None_le. rewrite A.
    destruct R as [[->|[_ T]] _]; [reflexivity|]. exfalso.
    unfold holdsAt in T.
    destruct (nth_error timecodeList (Z.to_nat (linearScan timecodeList now)))
      as [item|] eqn:N; [|discriminate].
    rewrite (None_le item) in T; [discriminate|].
    eapply nth_error_In; eassumption.
Qed.

Lemma caption_lookup_is_linear_scan_witness :
  ascending [recordA; recordB]
  /\ findBestIndex [recordA; recordB] (JS.ofZ 5) = Returned 1.
Proof.
  assert (S : ascending [recordA; recordB]).
  { apply Sorted_cons;
      [apply Sorted_cons; [apply Sorted_nil | apply HdRel_nil]
      | apply HdRel_cons; vm_compute; reflexivity]. }
  split; [exact S|].
  exact (proj1 (proj1 caption_lookup_is_linear_scan
                  [recordA; recordB] (JS.ofZ 5) S)).
Defined.

(** ** Splitting and joining *)

Section SplitJoin.

Variable c : ascii.

Lemma includes_cons a s :
  JS.includes (String a s) c = Ascii.eqb c a || JS.includes s c.
Proof. reflexivity. Qed.

Lemma split_without s : JS.includes s c = false -> JS.split c s = [s].
Proof.
  induction s as [|a s IH]; [reflexivity|].
  rewrite includes_cons. intros H. apply orb_false_elim in H as [Ha Hs].
  simpl. rewrite Ascii.eqb_sym, Ha, (IH Hs). reflexivity.
Qed.

Lemma split_at_first a b :
  JS.includes a c = false ->
  JS.split c (a ++ String c b) = a :: JS.split c b.
Proof.
  induction a as [|x a IH]; intros H.
  - simpl. rewrite Ascii.eqb_refl. reflexivity.
  - rewrite includes_cons in H. apply orb_false_elim in H as [Hx Ha].
    simpl. rewrite Ascii.eqb_sym, Hx, (IH Ha). reflexivity.
Qed.

Lemma includes_at_first a b : JS.includes (a ++ String c b) c = true.
Proof.
  induction a as [|x a IH].
  - simpl. rewrite includes_cons, Ascii.eqb_refl. reflexivity.
  - simpl. rewrite includes_cons, IH. apply orb_true_r.
Qed.

Lemma join_cons p q ps :
  JS.join (String c EmptyString) (p :: q :: ps) =
  (p ++ String c (JS.join (String c EmptyString) (q :: ps)))%string.
Proof. reflexivity. Qed.

(** Joining components that do not hold the separator and splitting the
    result gives the components back. *)
Lemma split_join ps :
  ps <> [] -> Forall (fun p => JS.includes p c = false) ps ->
  JS.split c (JS.join (String c EmptyString) ps) = ps.
Proof.
  induction ps as [|p ps IH]; intros NE F; [congruence|].
  inversion F as [|? ? Hp Hps]; subst.
  destruct ps as [|q ps].
  - simpl. apply split_without. exact Hp.
  - rewrite join_cons, split_at_first by exact Hp.
    f_equal. apply IH; [discriminate | exact Hps].
Qed.

Lemma includes_join p q ps :
  JS.includes (JS.join (String c EmptyString) (p :: q :: ps)) c = true.
Proof. rewrite join_cons. apply includes_at_first. Qed.

End SplitJoin.

(** ** [timeToSecs] *)

Lemma timeToSecs_components p q ps :
  Forall colonFree (p :: q :: ps) ->
  timeToSecs (timecodeOf (p :: q :: ps)) =
  let split := map JS.parseFloat (p :: q :: ps) in
  if existsb JS.isNaN split then JS.zero
  else if (List.length split =? 2)%nat then
    JS.add (JS.mul (at_ split 0) (JS.ofZ 60)) (at_ split 1)
  else
    JS.add (JS.add (JS.mul (at_ split 0) (JS.ofZ 3600))
                   (JS.mul (at_ split 1) (JS.ofZ 60)))
           (at_ split 2).
Proof.
  intros F. unfold timecodeOf, timeToSecs.
  rewrite (includes_join ":" p q ps).
  rewrite (split_join ":" (p :: q :: ps));
    [reflexivity | discriminate | exact F].
Qed.

Lemma timeToSecs_colon_free s :
  colonFree s -> timeToSecs (TimeStr s) = JS.parseFloat s.
Proof. unfold colonFree, timeToSecs. intros ->. reflexivity. Qed.

(** C6.  [timeToSecs] returns a number as it is; on two colon-separated
    numeric components [m] and [s] it returns [m * 60 + s]; on three, [h],
    [m] and [s], it returns [h * 3600 + m * 60 + s]; on a string without a
    colon it returns the string's float value; and it sends 01:02:03 to
    3723, 02:03 to 123, the string 45 to 45 and the number 90 to 90. *)
Theorem timeToSecs_reference_arithmetic :
  (forall x, timeToSecs (TimeNum x) = x)
  /\ (forall m s, colonFree m -> colonFree s ->
        JS.isNaN (JS.parseFloat m) = false ->
        JS.isNaN (JS.parseFloat s) = false ->
        timeToSecs (TimeStr (m ++ ":" ++ s)) =
        JS.add (JS.mul (JS.parseFloat m) (JS.ofZ 60)) (JS.parseFloat s))
  /\ (forall h m s, colonFree h -> colonFree m -> colonFree s ->
        JS.isNaN (JS.parseFloat h) = false ->
        JS.isNaN (JS.parseFloat m) = false ->
        JS.isNaN (JS.parseFloat s) = false ->
        timeToSecs (TimeStr (h ++ ":" ++ m ++ ":" ++ s)) =
        JS.add (JS.add (JS.mul (JS.parseFloat h) (JS.ofZ 3600))
                       (JS.mul (JS.parseFloat m) (JS.ofZ 60)))
               (JS.parseFloat s))
  /\ (forall s, colonFree s -> timeToSecs (TimeStr s) = JS.parseFloat s)
  /\ timeToSecs (TimeStr "01:02:03") = JS.ofZ 3723
  /\ timeToSecs (TimeStr "02:03") = JS.ofZ 123
  /\ timeToSecs (TimeStr "45") = JS.ofZ 45
  /\ timeToSecs (TimeNum (JS.ofZ 90)) = JS.ofZ 90.
Proof.
  split; [reflexivity|].
  split.
  { intros m s Cm Cs Nm Ns.
    change (TimeStr (m ++ ":" ++ s)) with (timecodeOf [m; s]).
    rewrite timeToSecs_components by (repeat constructor; assumption).
    cbn [map existsb]. rewrite Nm, Ns. reflexivity. }
  split.
  { intros h m s Ch Cm Cs Nh Nm Ns.
    change (TimeStr (h ++ ":" ++ m ++ ":" ++ s)) with (timecodeOf [h; m; s]).
    rewrite timeToSecs_components by (repeat constructor; assumption).
    cbn [map existsb]. rewrite Nh, Nm, Ns. reflexivity. }
  split; [exact timeToSecs_colon_free|].
  repeat split; vm_compute; reflexivity.
Qed.

Lemma timeToSecs_reference_arithmetic_witness :
  timeToSecs (TimeStr ("02" ++ ":" ++ "03")) = JS.ofZ 123
  /\ timeToSecs (TimeStr ("01" ++ ":" ++ "02" ++ ":" ++ "03")) = JS.ofZ 3723
  /\ timeToSecs (TimeStr "45") = JS.ofZ 45.
Proof.
  destruct timeToSecs_reference_arithmetic as [_ [Two [Three [One _]]]].
  split; [|split].
  - rewrite (Two "02" "03"); reflexivity.
  - rewrite (Three "01" "02" "03"); reflexivity.
  - rewrite (One "45"); reflexivity.
Defined.

(** C10.  On four or more colon-separated components that all parse as
    numbers, [timeToSecs] returns the first times 3600 plus the second
    times 60 plus the third, whatever the components past the third are;
    when any component, one past the third included, does not parse as a
    number, it returns 0. *)
Theorem timeToSecs_extra_components (components : list string) :
  (4 <= List.length components)%nat ->
  Forall colonFree components ->
  let split := map JS.parseFloat components in
  (existsb JS.isNaN split = false ->
   timeToSecs (timecodeOf components) =
   JS.add (JS.add (JS.mul (at_ split 0) (JS.ofZ 3600))
                  (JS.mul (at_ split 1) (JS.ofZ 60)))
          (at_ split 2))
  /\ (existsb JS.isNaN split = true ->
      timeToSecs (timecodeOf components) = JS.zero).
Proof.
  intros L F split.
  destruct components as [|p [|q [|r [|u rest]]]]; simpl in L; try lia.
  rewrite timeToSecs_components by exact F. fold split.
  split; intros E; cbv zeta; fold split; rewrite E; reflexivity.
Qed.

Lemma timeToSecs_extra_components_witness :
  timeToSecs (TimeStr "1:2:3:4") = JS.ofZ 3723
  /\ timeToSecs (TimeStr "1:2:3:x") = JS.zero.
Proof.
  assert (F : forall u, colonFree u -> Forall colonFree ["1"; "2"; "3"; u]).
  { intros u Hu. repeat constructor; assumption. }
  split.
  - apply (timeToSecs_extra_components ["1"; "2"; "3"; "4"]);
      [simpl; lia | apply F | ]; reflexivity.
  - apply (timeToSecs_extra_components ["1"; "2"; "3"; "x"]);
      [simpl; lia | apply F | ]; reflexivity.
Defined.

(** C3.  On the colon-free string [bad], [timeToSecs] returns what
    [parseFloat] returns, which is NaN and not 0; with a colon after it the
    same text is caught by the NaN test and gives 0. *)
Theorem timeToSecs_bad_is_NaN :
  timeToSecs (TimeStr "bad") = JS.NaN
  /\ timeToSecs (TimeStr "bad") <> JS.zero
  /\ timeToSecs (TimeStr "bad:00") = JS.zero.
Proof. repeat split; try reflexivity. discriminate. Qed.

(** ** The subtitle document *)

Lemma nth_error_mapi_from {A B : Type} (f : nat -> A -> B) :
  forall xs i0 k,
  nth_error (mapi_from i0 f xs) k
  = option_map (f (i0 + k)%nat) (nth_error xs k).
Proof.
  induction xs as [|x xs IH]; intros i0 k.
  - destruct k; reflexivity.
  - destruct k as [|k]; simpl.
    + rewrite Nat.add_0_r. reflexivity.
    + rewrite IH. do 2 f_equal. lia.
Qed.

Lemma nth_error_srtBlocksFrom totalDuration :
  forall timecodes number k,
  nth_error (srtBlocksFrom number timecodes totalDuration) k =
  match nth_error timecodes k with
  | Some item =>
      Some (srtBlock (number + Z.of_nat k) (timeToSecs (time item))
              match nth_error timecodes (S k) with
              | Some next => timeToSecs (time next)
              | None => totalDuration
              end
              (text item))
  | None => None
  end.
Proof.
  induction timecodes as [|item rest IH]; intros number k.
  - destruct k; reflexivity.
  - destruct k as [|k].
    + simpl. rewrite Z.add_0_r. destruct rest; reflexivity.
    + cbn [srtBlocksFrom nth_error]. rewrite IH.
      destruct (nth_error rest k); [|reflexivity].
      do 2 f_equal. lia.
Qed.

Lemma generateSrt_blocks timecodes totalDuration :
  generateSrt timecodes totalDuration =
  JS.join nl (srtBlocksFrom 1 timecodes totalDuration).
Proof.
  unfold generateSrt. f_equal. apply nth_error_ext. intros k.
  unfold mapi. rewrite nth_error_mapi_from, nth_error_srtBlocksFrom.
  cbn [Nat.add].
  destruct (nth_error timecodes k) as [item|] eqn:E; [|reflexivity].
  cbn [option_map]. f_equal.
  assert (Hk : (k < List.length timecodes)%nat)
    by (apply nth_error_Some; congruence).
  replace (k + 1)%nat with (S k) by lia.
  rewrite (Z.add_comm 1).
  destruct (Z.of_nat k <? Z.of_nat (List.length timecodes) - 1) eqn:C.
  - apply Z.ltb_lt in C.
    destruct (nth_error timecodes (S k)) eqn:N; [reflexivity|].
    apply nth_error_None in N. lia.
  - apply Z.ltb_ge in C.
    assert (N : nth_error timecodes (S k) = None)
      by (apply nth_error_None; lia).
    rewrite N. reflexivity.
Qed.

(** The numeral of a small integer is what [toString] prints for it, and
    the stamp of 3723.456 seconds. *)
Example numerals_and_stamps :
  map (fun z => JS.toString (JS.ofZ z)) [1; 2; 10; 120; 4294967295]
  = map JS.decimal [1; 2; 10; 120; 4294967295]
  /\ formatSrtTime (JS.parseFloat "3723.456") = "01:02:03,456"
  /\ formatSrtTime JS.zero = "00:00:00,000".
Proof. repeat split; vm_compute; reflexivity. Qed.

(** C4.  [generateSrt] joins, with a newline between them, one block per
    record, each ending in a newline, so that a blank line separates the
    blocks; the block of the record at index [i] holds the number [i + 1],
    then the stamps of the record's time and of the next record's time (of
    the total duration for the last record), then the record's text; no
    record gives the empty string; and Hi at 0:00 and Bye at 0:05 with a
    total of 10 give the spans [00:00:00,000 --> 00:00:05,000] and
    [00:00:05,000 --> 00:00:10,000]. *)
Theorem generateSrt_one_block_per_record :
  (forall timecodes totalDuration,
     generateSrt timecodes totalDuration =
       JS.join nl (srtBlocksFrom 1 timecodes totalDuration)
     /\ List.length (srtBlocksFrom 1 timecodes totalDuration)
        = List.length timecodes
     /\ forall i,
          nth_error (srtBlocksFrom 1 timecodes totalDuration) i
          = blockAt timecodes totalDuration i)
  /\ (forall number startTime endTime txt,
        srtBlock number startTime endTime txt =
        (JS.decimal number ++ nl
         ++ formatSrtTime startTime ++ " --> " ++ formatSrtTime endTime ++ nl
         ++ txt ++ nl)%string)
  /\ (forall totalDuration, generateSrt [] totalDuration = "")
  /\ generateSrt
       [ {| time := TimeStr "0:00"; text := "Hi" |};
         {| time := TimeStr "0:05"; text := "Bye" |} ] (JS.ofZ 10)
     = ("1" ++ nl ++ "00:00:00,000 --> 00:00:05,000" ++ nl ++ "Hi" ++ nl
        ++ nl
        ++ "2" ++ nl ++ "00:00:05,000 --> 00:00:10,000" ++ nl ++ "Bye"
        ++ nl)%string.
Proof.
  split;
    [|split; [reflexivity | split; [reflexivity | vm_compute; reflexivity]]].
  intros timecodes totalDuration. split; [apply generateSrt_blocks|]. split.
  - generalize 1. induction timecodes as [|item rest IH]; intros number;
      [reflexivity|]. simpl. f_equal. apply IH.
  - intros i. rewrite nth_error_srtBlocksFrom. unfold blockAt.
    rewrite (Z.add_comm 1). reflexivity.
Qed.

(** ** Playback state *)

Lemma updateTime_sets_caption v timecodeList st :
  currentCaption (updateTime (Some v) timecodeList st)
  = captionFor timecodeList (currentTime v).
Proof.
  destruct timecodeList as [l|]; [apply updateTime_caption|].
  simpl. destruct (isScrubbing st); reflexivity.
Qed.

Lemma updateTime_while_scrubbing video timecodeList st :
  isScrubbing st = true ->
  scrubberTime (updateTime video timecodeList st) = scrubberTime st
  /\ isScrubbing (updateTime video timecodeList st) = true.
Proof.
  intros Sc. unfold updateTime. destruct video as [v|]; [|auto].
  rewrite Sc. cbn [negb].
  destruct timecodeList as [l|]; [|auto].
  destruct (0 <? List.length l)%nat; [|auto].
  destruct (findBestIndex l (currentTime v)); auto.
Qed.

(** C2, as stated, fails: with the flag set and no caption shown, one
    tick at time 5 over a list with a record at time 5 shows that record's
    text. *)
Lemma ticks_change_caption_while_scrubbing :
  isScrubbing scrubbingAtSilence = true
  /\ currentCaption scrubbingAtSilence = None
  /\ currentCaption
       (ticks [(Some (elementAt 5 10), Some [recordA])] scrubbingAtSilence)
     = Some "a"
  /\ currentCaption
       (ticks [(Some (elementAt 5 10), Some [recordA])] scrubbingAtSilence)
     <> currentCaption scrubbingAtSilence.
Proof.
  split; [reflexivity|]. split; [reflexivity|].
  assert (E : currentCaption
                (ticks [(Some (elementAt 5 10), Some [recordA])]
                   scrubbingAtSilence) = Some "a")
    by (vm_compute; reflexivity).
  split; [exact E|]. rewrite E. discriminate.
Qed.

(** C2, amended.  While the scrubbing flag is set, position ticks change
    neither the scrubber position nor the flag; the caption is recomputed
    at every tick that finds the media element, flag set or not, as the
    text of the record the lookup selects at the element's current time. *)
Theorem ticks_keep_scrubber_while_scrubbing :
  (forall st events, isScrubbing st = true ->
     scrubberTime (ticks events st) = scrubberTime st
     /\ isScrubbing (ticks events st) = true)
  /\ (forall st v timecodeList,
        currentCaption (updateTime (Some v) timecodeList st)
        = captionFor timecodeList (currentTime v)).
Proof.
  split; [|intros; apply updateTime_sets_caption].
  intros st events. revert st.
  induction events as [|[video tl] events IH]; intros st Sc; [auto|].
  cbn [ticks fold_left fst snd].
  destruct (updateTime_while_scrubbing video tl st Sc) as [P F].
  destruct (IH _ F) as [P' F']. fold (ticks events (updateTime video tl st)).
  split; [congruence | exact F'].
Qed.

Lemma ticks_keep_scrubber_while_scrubbing_witness :
  scrubberTime
    (ticks [(Some (elementAt 5 10), Some [recordA]);
            (Some (elementAt 6 10), None)]
       scrubbingAtSilence)
  = JS.zero.
Proof.
  exact (proj1 (proj1 ticks_keep_scrubber_while_scrubbing
                  scrubbingAtSilence
                  [(Some (elementAt 5 10), Some [recordA]);
                   (Some (elementAt 6 10), None)]
                  eq_refl)).
Defined.

(** C7, as stated, fails: the effect leaves a set scrubbing flag set. *)
Lemma url_change_keeps_scrubbing_flag :
  isScrubbing scrubbingAtSilence = true
  /\ isScrubbing (onUrlChange scrubbingAtSilence) = true
  /\ isScrubbing (onUrlChange scrubbingAtSilence) <> false.
Proof. repeat split; try reflexivity. discriminate. Qed.

Lemma mul_zero_falsy (d : JS.number) :
  JS.or (JS.mul d JS.zero) JS.zero = JS.zero.
Proof. destruct d; reflexivity. Qed.

(** C7, amended.  When the media source changes, the scrubber position
    becomes 0 (and so does the displayed current time), the caption
    becomes none and the playing flag is cleared, whatever the state was;
    the scrubbing flag and the duration are left as they were. *)
Theorem url_change_resets_position_and_caption (st : PlayerState) :
  scrubberTime (onUrlChange st) = JS.zero
  /\ currentSecs (onUrlChange st) = JS.zero
  /\ currentCaption (onUrlChange st) = None
  /\ isPlaying (onUrlChange st) = false
  /\ isScrubbing (onUrlChange st) = isScrubbing st
  /\ duration (onUrlChange st) = duration st.
Proof.
  repeat split. unfold currentSecs. simpl. apply mul_zero_falsy.
Qed.

(** ** Seeking *)





(** C8.  With a duration of 0 the marker of a record at 0:05 is placed at
    Infinity percent and that of a record at 0:00 at NaN percent: the
    division by the duration is not guarded.  The current-seconds display
    and the played fraction, which end in [|| 0], are 0 there. *)
Theorem marker_percent_at_zero_duration :
  markerPct JS.zero (TText {| time := TimeStr "0:05"; text := "x" |})
    = JS.Infinity
  /\ markerPct JS.zero (TText {| time := TimeStr "0:00"; text := "x" |})
    = JS.NaN
  /\ (forall st, currentSecs (setDuration JS.zero st) = JS.zero)
  /\ playedFraction (elementAt 0 0) = JS.zero.
Proof.
  repeat split; try (vm_compute; reflexivity).
  intros st. unfold currentSecs. simpl.
  destruct (scrubberTime st); reflexivity.
Qed.

(** ** Superseded requests *)

(** A suspended call whose identifier is no longer the latest leaves the
    whole state as it is, whatever resumes it. *)
Lemma resume_stale k w st :
  App.latestRequestRef st <> App.requestId k ->
  fst (App.resume k w st) = st
  /\ match snd (App.resume k w st) with
     | Some k' => App.requestId k' = App.requestId k
     | None => True
     end.
Proof.
  intros NE. apply Z.eqb_neq in NE.
  unfold App.resume, App.afterLoop, App.finally, App.catch.
  destruct (App.phase k), w as [[resp|message]|]; rewrite ?NE; simpl; auto.
  all: destruct (App.responds resp); simpl; auto.
  all: destruct (App.attempt k <? 2)%nat; simpl; auto.
Qed.

Lemma drive_stale ws : forall k st,
  App.latestRequestRef st <> App.requestId k ->
  fst (App.drive k ws st) = st.
Proof.
  induction ws as [|w ws IH]; intros k st NE; [reflexivity|].
  simpl. destruct (resume_stale k w st NE) as [E K].
  destruct (App.resume k w st) as [st' [k'|]]; simpl in E, K; subst st'.
  - apply IH. congruence.
  - reflexivity.
Qed.

(** The latest call's response is handled, and the handling is all that
    touches the result state. *)
Lemma resume_latest k resp st :
  App.latestRequestRef st = App.requestId k ->
  App.phase k = App.AwaitingContent ->
  App.responds resp = true ->
  App.resume k (App.Content (App.Resolved resp)) st
  = (App.setIsLoading false (App.handleResponse resp st), None).
Proof.
  intros L P R. unfold App.resume, App.afterLoop, App.finally.
  rewrite P, R.
  assert (H : App.latestRequestRef (App.handleResponse resp st)
              = App.latestRequestRef st).
  { unfold App.handleResponse.
    destruct (App.firstCall resp) as [call|];
      [destruct (App.name call) as [[|c nm]|], (App.args call) as [tcs|]|];
      try destruct (String.prefix _ _);
      try destruct (App.nonEmpty (App.responseText resp)); reflexivity. }
  rewrite H, L, Z.eqb_refl. reflexivity.
Qed.

(** With a file at hand, [onModeSelect] clears the results, records its
    identifier as the latest and suspends at its first request. *)
Lemma onModeSelect_issues now mode st :
  App.file st <> None ->
  App.onModeSelect now mode st
  = (fst (App.onModeSelect now mode st), Some (firstAttempt now))
  /\ App.file (fst (App.onModeSelect now mode st)) = App.file st
  /\ App.latestRequestRef (fst (App.onModeSelect now mode st)) = now
  /\ App.results (fst (App.onModeSelect now mode st)) = (None, None, None).
Proof.
  unfold App.onModeSelect. destruct (App.file st) eqn:E; [|congruence].
  intros _. repeat split.
Qed.


(** * Further properties *)

(** ** The lookup on lists in any order *)

Lemma searchLoop_reached timecodeList now fuel : forall low high best b,
  0 <= low -> high < Z.of_nat (List.length timecodeList) ->
  (best = -1
   \/ (0 <= best < Z.of_nat (List.length timecodeList)
       /\ holdsAt timecodeList now (Z.to_nat best) = true)) ->
  searchLoop fuel timecodeList now low high best = Returned b ->
  b = -1
  \/ (0 <= b < Z.of_nat (List.length timecodeList)
      /\ holdsAt timecodeList now (Z.to_nat b) = true).
Proof.
  induction fuel as [|fuel IH]; intros low high best b Hl Hh Hb; simpl.
  - destruct (low <=? high); [discriminate|]. intros [= <-]. exact Hb.
  - destruct (low <=? high) eqn:C; [|intros [= <-]; exact Hb].
    apply Z.leb_le in C.
    assert (M : low <= (low + high) / 2 <= high).
    { split; [apply Z.div_le_lower_bound | apply Z.div_le_upper_bound]; lia. }
    generalize dependent ((low + high) / 2). intros mid M.
    destruct (nth_error timecodeList (Z.to_nat mid)) as [item|] eqn:E;
      [|discriminate].
    destruct (JS.leb (secsOf item) now) eqn:L; apply IH; try lia; try exact Hb.
    right. split; [lia|]. unfold holdsAt. rewrite E. exact L.
Qed.

(** X1.  On every list, in ascending order or not, the search of
    [updateTime] ends and selects either nothing or a record of the list
    whose time is at most the position: a caption is never taken from a
    record that lies after the position. *)
Theorem lookup_selects_no_later_record (timecodeList : list Timecode)
  (now : JS.number) :
  (exists b, findBestIndex timecodeList now = Returned b
             /\ -1 <= b < Z.of_nat (List.length timecodeList))
  /\ forall current, activeRecord timecodeList now = Some current ->
       In current timecodeList /\ JS.leb (secsOf current) now = true.
Proof.
  destruct (findBestIndex_returns timecodeList now) as [b E].
  assert (R : b = -1
              \/ (0 <= b < Z.of_nat (List.length timecodeList)
                  /\ holdsAt timecodeList now (Z.to_nat b) = true)).
  { eapply searchLoop_reached; [| | |exact E]; lia. }
  split.
  - exists b. split; [exact E|]. destruct R as [->|[R _]]; lia.
  - intros current. unfold activeRecord. rewrite E.
    destruct R as [->|[_ T]]; [discriminate|].
    destruct (b =? -1); [discriminate|]. intros N.
    split; [eapply nth_error_In; exact N|].
    unfold holdsAt in T. rewrite N in T. exact T.
Qed.

Lemma lookup_selects_no_later_record_witness :
  In recordB [recordA; recordB] /\ JS.leb (secsOf recordB) (JS.ofZ 5) = true.
Proof.
  apply (proj2 (lookup_selects_no_later_record [recordA; recordB] (JS.ofZ 5))).
  vm_compute. reflexivity.
Defined.

(** ** Sanitized timecodes *)

Lemma secsOf_sanitize t : secsOf (App.sanitize t) = secsOf t.
Proof. destruct t; reflexivity. Qed.

Lemma searchLoop_sanitize now timecodes fuel : forall low high best,
  searchLoop fuel (map App.sanitize timecodes) now low high best
  = searchLoop fuel timecodes now low high best.
Proof.
  induction fuel as [|fuel IH]; intros low high best; [reflexivity|].
  cbn [searchLoop]. rewrite nth_error_map.
  destruct (nth_error timecodes (Z.to_nat ((low + high) / 2))) as [item|];
    [|reflexivity].
  cbn [option_map]. rewrite secsOf_sanitize, !IH. reflexivity.
Qed.

(** X2.  [setTimecodes] stores a list with as many records as it was
    given and with the same times, and the lookup selects the same index
    in the stored list as in the given one at every position: what is
    shown is the sanitized form of the record selected in the given
    list. *)
Theorem setTimecodes_keeps_times_and_lookup (timecodes : list Timecode)
  (st : App.AppState) :
  exists stored,
    App.timecodeList (App.setTimecodes timecodes st) = Some stored
    /\ List.length stored = List.length timecodes
    /\ map timeOf stored = map timeOf timecodes
    /\ forall now,
         findBestIndex stored now = findBestIndex timecodes now
         /\ activeRecord stored now
            = option_map App.sanitize (activeRecord timecodes now).
Proof.
  exists (map App.sanitize timecodes).
  split; [reflexivity|]. split; [apply length_map|]. split.
  - rewrite map_map. apply map_ext. intros []; reflexivity.
  - intros now.
    assert (E : findBestIndex (map App.sanitize timecodes) now
                = findBestIndex timecodes now).
    { unfold findBestIndex. rewrite length_map. apply searchLoop_sanitize. }
    split; [exact E|]. unfold activeRecord. rewrite E.
    destruct (findBestIndex timecodes now) as [b| |]; try reflexivity.
    destruct (b =? -1); [reflexivity|]. apply nth_error_map.
Qed.

Lemma unescapeQuotes_pair : forall s,
  let keeps t :=
    (String.length (App.unescapeQuotes t) <= String.length t)%nat
    /\ (JS.includes t "\" = false -> App.unescapeQuotes t = t) in
  keeps s /\ forall c, keeps (String c s).
Proof.
  induction s as [|a s [[Ls Es] IH]]; cbv zeta.
  - repeat split; simpl; auto.
  - split; [apply IH|]. intros c. destruct (IH a) as [La Ea].
    change (App.unescapeQuotes (String c (String a s)))
      with (if Ascii.eqb c "\" && Ascii.eqb a "'"
            then String "'" (App.unescapeQuotes s)
            else String c (App.unescapeQuotes (String a s))).
    destruct (Ascii.eqb c "\" && Ascii.eqb a "'") eqn:B.
    + split; [cbn [String.length] in *; lia|].
      apply andb_prop in B as [Bc _]. rewrite includes_cons, Ascii.eqb_sym, Bc.
      discriminate.
    + split; [cbn [String.length] in *; lia|].
      rewrite includes_cons. intros H. apply orb_false_elim in H as [_ H].
      rewrite (Ea H). reflexivity.
Qed.

(** X3.  Unescaping quotes never makes a text longer and leaves a text
    without a backslash exactly as it is. *)
Theorem unescapeQuotes_shortens_or_keeps (s : string) :
  (String.length (App.unescapeQuotes s) <= String.length s)%nat
  /\ (JS.includes s "\" = false -> App.unescapeQuotes s = s).
Proof. exact (proj1 (unescapeQuotes_pair s)). Qed.

Lemma unescapeQuotes_shortens_or_keeps_witness :
  App.unescapeQuotes "Dialogue: 'Almost!'" = "Dialogue: 'Almost!'".
Proof.
  apply (proj2 (unescapeQuotes_shortens_or_keeps "Dialogue: 'Almost!'")).
  reflexivity.
Defined.

(** ** Retries and the end of a request *)

Lemma handleResponse_latest resp st :
  App.latestRequestRef (App.handleResponse resp st) = App.latestRequestRef st.
Proof.
  unfold App.handleResponse.
  destruct (App.firstCall resp) as [call|];
    [destruct (App.name call) as [[|c nm]|], (App.args call) as [tcs|]|];
    try destruct (String.prefix _ _);
    try destruct (App.nonEmpty (App.responseText resp)); reflexivity.
Qed.

Lemma handleResponse_atMostOne resp st :
  App.results st = (None, None, None) ->
  atMostOne (App.results (App.handleResponse resp st)).
Proof.
  intros [= TL TR AE]. unfold App.handleResponse, App.results.
  destruct (App.firstCall resp) as [call|];
    [destruct (App.name call) as [[|c nm]|], (App.args call) as [tcs|]|];
    try destruct (String.prefix _ _);
    try destruct (App.nonEmpty (App.responseText resp)) eqn:NE;
    simpl; rewrite ?TL, ?TR, ?AE; try exact I.
  all: destruct (App.responseText resp); try discriminate NE; exact I.
Qed.

Lemma handleResponse_empty resp st :
  App.responds resp = false ->
  App.handleResponse resp st = App.setApiError (Some App.noValidResponse) st.
Proof.
  unfold App.responds, App.handleResponse.
  destruct (App.firstCall resp); [discriminate|]. intros ->. reflexivity.
Qed.

(** While a call is the latest and suspended, the state is as its issue
    left it. *)
Definition suspendedAt (st : App.AppState) (k : App.Pending) : Prop :=
  App.latestRequestRef st = App.requestId k
  /\ App.results st = (None, None, None)
  /\ (App.attempt k <= 2)%nat
  /\ (App.phase k = App.AwaitingBackoff -> App.attempt k < 2)%nat.

Lemma resume_suspended k w st :
  suspendedAt st k ->
  match App.resume k w st with
  | (st', Some k') => st' = st /\ suspendedAt st k'
  | (st', None) =>
      App.isLoading st' = false /\ atMostOne (App.results st')
  end.
Proof.
  intros [L [R [A B]]]. unfold App.resume.
  assert (F : forall s, App.latestRequestRef s = App.requestId k ->
              App.finally (App.requestId k) s = App.setIsLoading false s).
  { intros s E. unfold App.finally. rewrite E, Z.eqb_refl. reflexivity. }
  assert (Done : forall resp,
            App.isLoading (App.afterLoop (App.requestId k) resp st) = false
            /\ atMostOne
                 (App.results (App.afterLoop (App.requestId k) resp st))).
  { intros resp. unfold App.afterLoop. rewrite L, Z.eqb_refl. cbn [negb].
    rewrite F by (rewrite handleResponse_latest; exact L).
    split; [reflexivity|]. apply (handleResponse_atMostOne resp st R). }
  destruct (App.phase k) eqn:P, w as [[resp|message]|].
  - destruct (App.responds resp); [apply Done|].
    destruct (App.attempt k <? App.maxRetries - 1)%nat eqn:C; [|apply Done].
    apply Nat.ltb_lt in C. unfold App.maxRetries in C.
    split; [reflexivity|]. repeat split; simpl; auto; lia.
  - unfold App.catch. rewrite L, Z.eqb_refl, F by exact L.
    split; [reflexivity|]. unfold App.results in *. simpl.
    injection R as -> -> _. exact I.
  - split; [reflexivity|]. repeat split; auto. congruence.
  - split; [reflexivity|]. repeat split; auto.
  - split; [reflexivity|]. repeat split; auto.
  - rewrite L, Z.eqb_refl. cbn [negb]. specialize (B eq_refl).
    split; [reflexivity|]. repeat split; simpl; auto; try lia. discriminate.
Qed.

(** X4.  However a request is resumed while it stays the latest, it
    either is still suspended, with the state exactly as its issue left
    it and with at most two retries behind it (so at most three requests
    are ever sent), or it has ended, and then the loading flag is cleared
    and at most one of timecode list, text response and error message is
    set. *)
Theorem request_ends_with_one_result :
  forall st now mode wakes, App.file st <> None ->
  let issued := fst (App.onModeSelect now mode st) in
  match App.drive (firstAttempt now) wakes issued with
  | (st', Some k) =>
      st' = issued /\ App.requestId k = now /\ (App.attempt k <= 2)%nat
  | (st', None) =>
      App.isLoading st' = false /\ atMostOne (App.results st')
  end.
Proof.
  intros st now mode wakes F issued.
  destruct (onModeSelect_issues now mode st F) as [_ [_ [L R]]].
  fold issued in L, R.
  assert (S0 : suspendedAt issued (firstAttempt now)).
  { repeat split; simpl; auto; discriminate. }
  assert (Id : App.requestId (firstAttempt now) = now) by reflexivity.
  revert S0 Id. generalize (firstAttempt now) as k.
  induction wakes as [|w wakes IH]; intros k S Id; simpl.
  - destruct S as [_ [_ [A _]]]. auto.
  - pose proof (resume_suspended k w issued S) as H.
    destruct (App.resume k w issued) as [st' [k'|]].
    + destruct H as [-> S']. apply IH; [exact S'|].
      destruct S as [L1 _], S' as [L2 _]. congruence.
    + exact H.
Qed.

Lemma request_ends_with_one_result_witness :
  App.isLoading
    (fst (App.drive (firstAttempt 1000)
            [App.Content (App.Resolved (textOnly "A summary."))]
            (fst (App.onModeSelect 1000 "Paragraph" readyToAsk))))
  = false.
Proof.
  assert (F : App.file readyToAsk <> None) by discriminate.
  exact (proj1 (request_ends_with_one_result readyToAsk 1000 "Paragraph"
                  [App.Content (App.Resolved (textOnly "A summary."))] F)).
Defined.

(** X5.  A request that is the latest and receives three responses with
    neither a function call nor a text, with the two backoffs between
    them, ends with the error message about no valid response and the
    loading flag cleared; if the second response carries something, it is
    handled and no third request is sent. *)
Theorem empty_responses_are_retried_twice :
  forall st now r1 r2 r3,
    App.latestRequestRef st = now ->
    App.responds r1 = false ->
    (App.responds r2 = false -> App.responds r3 = false ->
     App.drive (firstAttempt now)
       [App.Content (App.Resolved r1); App.BackoffElapsed;
        App.Content (App.Resolved r2); App.BackoffElapsed;
        App.Content (App.Resolved r3)] st
     = (App.setIsLoading false
          (App.setApiError (Some App.noValidResponse) st), None))
    /\ (App.responds r2 = true ->
        App.drive (firstAttempt now)
          [App.Content (App.Resolved r1); App.BackoffElapsed;
           App.Content (App.Resolved r2)] st
        = (App.setIsLoading false (App.handleResponse r2 st), None)).
Proof.
  intros st now r1 r2 r3 L E1.
  assert (A : forall r, App.afterLoop now r st
              = App.setIsLoading false (App.handleResponse r st)).
  { intros r. unfold App.afterLoop, App.finally.
    rewrite handleResponse_latest, L, Z.eqb_refl. reflexivity. }
  assert (Retry : forall i r, App.responds r = false -> (i < 2)%nat ->
            App.resume (attemptAt now i App.AwaitingContent)
              (App.Content (App.Resolved r)) st
            = (st, Some (attemptAt now i App.AwaitingBackoff))).
  { intros i r E Hi. unfold App.resume, attemptAt.
    cbn [App.phase App.requestId App.attempt]. rewrite E.
    apply Nat.ltb_lt in Hi.
    change (App.maxRetries - 1)%nat with 2%nat. rewrite Hi. reflexivity. }
  assert (Again : forall i,
            App.resume (attemptAt now i App.AwaitingBackoff)
              App.BackoffElapsed st
            = (st, Some (attemptAt now (S i) App.AwaitingContent))).
  { intros i. unfold App.resume, attemptAt.
    cbn [App.phase App.requestId App.attempt].
    rewrite L, Z.eqb_refl. reflexivity. }
  assert (Answer : forall i r, App.responds r = true ->
            App.resume (attemptAt now i App.AwaitingContent)
              (App.Content (App.Resolved r)) st
            = (App.setIsLoading false (App.handleResponse r st), None)).
  { intros i r E. unfold App.resume, attemptAt.
    cbn [App.phase App.requestId App.attempt]. rewrite E, A. reflexivity. }
  change (firstAttempt now) with (attemptAt now 0 App.AwaitingContent).
  split.
  - intros E2 E3. cbn [App.drive].
    rewrite (Retry 0%nat), Again, (Retry 1%nat), Again by (auto; lia).
    unfold App.resume, attemptAt. cbn [App.phase App.requestId App.attempt].
    rewrite E3. change (2 <? App.maxRetries - 1)%nat with false.
    rewrite A, handleResponse_empty by exact E3. reflexivity.
  - intros E2. cbn [App.drive].
    rewrite (Retry 0%nat), Again, Answer by (auto; lia). reflexivity.
Qed.

Lemma empty_responses_are_retried_twice_witness :
  App.apiError
    (fst (App.drive (firstAttempt 1000)
            [App.Content (App.Resolved emptyResponse); App.BackoffElapsed;
             App.Content (App.Resolved emptyResponse); App.BackoffElapsed;
             App.Content (App.Resolved emptyResponse)]
            (fst (App.onModeSelect 1000 "Paragraph" readyToAsk))))
  = Some App.noValidResponse.
Proof.
  destruct (empty_responses_are_retried_twice
              (fst (App.onModeSelect 1000 "Paragraph" readyToAsk))
              1000 emptyResponse emptyResponse emptyResponse
              eq_refl eq_refl) as [H _].
  rewrite (H eq_refl eq_refl). reflexivity.
Defined.

(** X6.  After [handleCancel] the panel is not loading and shows no
    error, and, when the cancel read a time other than the request's
    identifier, nothing that resumes the cancelled request changes the
    state: its late response or error is not shown. *)
Theorem cancel_discards_the_pending_request :
  forall st k now wakes, now <> App.requestId k ->
    let cancelled := App.handleCancel now st in
    fst (App.drive k wakes cancelled) = cancelled
    /\ App.isLoading cancelled = false
    /\ App.apiError cancelled = None
    /\ App.timecodeList cancelled = App.timecodeList st
    /\ App.textResponse cancelled = App.textResponse st.
Proof.
  intros st k now wakes NE cancelled.
  split; [apply drive_stale; exact NE|]. repeat split.
Qed.

Lemma cancel_discards_the_pending_request_witness :
  App.results
    (fst (App.drive (firstAttempt 1000)
            [App.Content (App.Resolved (textOnly "late"))]
            (App.handleCancel 1500
               (fst (App.onModeSelect 1000 "Paragraph" readyToAsk)))))
  = (None, None, None).
Proof.
  assert (NE : 1500 <> App.requestId (firstAttempt 1000)) by discriminate.
  rewrite (proj1 (cancel_discards_the_pending_request
                    (fst (App.onModeSelect 1000 "Paragraph" readyToAsk))
                    (firstAttempt 1000) 1500
                    [App.Content (App.Resolved (textOnly "late"))] NE)).
  reflexivity.
Defined.

(** ** Jumping to a marker *)







(** ** Guarded quantities *)

Lemma or_zero_is_a_number (x : JS.number) : JS.isNaN (JS.or x JS.zero) = false.
Proof. destruct x; reflexivity. Qed.

(** X8.  The quantities that end in [|| 0] are never NaN: the duration
    kept by [updateDuration], the current-seconds display, and the
    scrubber position a time-update stores when the user is not
    scrubbing. *)
Theorem guarded_quantities_are_never_NaN :
  (forall video st, JS.isNaN (duration (updateDuration video st)) = false)
  /\ (forall st, JS.isNaN (currentSecs st) = false)
  /\ (forall v timecodeList st, isScrubbing st = false ->
        JS.isNaN (scrubberTime (updateTime (Some v) timecodeList st)) = false).
Proof.
  split; [|split].
  - intros [v|] st; [apply or_zero_is_a_number | reflexivity].
  - intros st. apply or_zero_is_a_number.
  - intros v tl st Sc. unfold updateTime. rewrite Sc. cbn [negb].
    destruct tl as [l|]; [|apply or_zero_is_a_number].
    destruct (0 <? List.length l)%nat; [|apply or_zero_is_a_number].
    destruct (findBestIndex l (currentTime v)); apply or_zero_is_a_number.
Qed.

Lemma guarded_quantities_are_never_NaN_witness :
  JS.isNaN
    (scrubberTime
       (updateTime (Some (elementAt 0 0)) None
          (onPointerUp scrubbingAtSilence)))
  = false.
Proof.
  exact (proj2 (proj2 guarded_quantities_are_never_NaN)
           (elementAt 0 0) None (onPointerUp scrubbingAtSilence) eq_refl).
Defined.

(** ** The clipboard text *)

(** X9.  The text copied for a non-empty list has one line per record, in
    order, provided no copied line holds a line feed: the lines of the
    text-only copy are the records' texts, those of the copy with
    timestamps are time, [ - ] and text; an empty list copies the empty
    string in both forms. *)
Theorem clipboard_has_one_line_per_record :
  (forall timecodes, timecodes <> [] ->
     (Forall (fun item => oneLine (text item)) timecodes ->
      JS.split lineFeed (formatCopyToClipboard timecodes TextOnly)
      = map text timecodes)
     /\ (Forall (fun item => oneLine (copyLine item)) timecodes ->
         JS.split lineFeed (formatCopyToClipboard timecodes Timestamps)
         = map copyLine timecodes))
  /\ (forall type, formatCopyToClipboard [] type = "").
Proof.
  split; [|intros []; reflexivity].
  intros timecodes NE.
  assert (M : forall (f : TextTimecode -> string), map f timecodes <> []).
  { intros f E. apply map_eq_nil in E. contradiction. }
  split; intros F; unfold formatCopyToClipboard; apply (split_join lineFeed);
    try apply M; rewrite Forall_map; exact F.
Qed.

Lemma clipboard_has_one_line_per_record_witness :
  JS.split lineFeed
    (formatCopyToClipboard
       [ {| time := TimeStr "0:05"; text := "Hi" |};
         {| time := TimeNum (JS.ofZ 7); text := "Bye" |} ] Timestamps)
  = ["0:05 - Hi"; "7 - Bye"].
Proof.
  apply (proj2 (proj1 clipboard_has_one_line_per_record
                  [ {| time := TimeStr "0:05"; text := "Hi" |};
                    {| time := TimeNum (JS.ofZ 7); text := "Bye" |} ]
                  ltac:(discriminate))).
  repeat constructor.
Defined.

(** ** Numerals *)

Section Numerals.

Let chars (d : Decimal.uint) : list ascii :=
  list_ascii_of_string (NilEmpty.string_of_uint d).

Let step (acc : Z) (c : ascii) : Z := 10 * acc + JS.digitVal c.

Lemma spanDigits_numeral d :
  JS.spanDigits (NilEmpty.string_of_uint d) = (chars d, EmptyString).
Proof.
  unfold chars. induction d; cbn [NilEmpty.string_of_uint]; [reflexivity|..];
    cbn [JS.spanDigits list_ascii_of_string];
    match goal with
    | |- context [JS.isDigit ?c] => change (JS.isDigit c) with true
    end; cbv iota; rewrite IHd; reflexivity.
Qed.

Lemma numeral_value_from d : forall acc,
  fold_left step (chars d) (Zpos acc) = Zpos (Pos.of_uint_acc d acc).
Proof.
  unfold chars.
  induction d; intros acc; cbn [NilEmpty.string_of_uint list_ascii_of_string
                                fold_left Pos.of_uint_acc];
    [reflexivity|..];
    rewrite <- IHd; f_equal; unfold step;
    match goal with
    | |- context [JS.digitVal ?c] =>
        let v := eval vm_compute in (JS.digitVal c) in
        change (JS.digitVal c) with v
    end; lia.
Qed.

Lemma numeral_value d :
  JS.digitsValue (chars d) = Z.of_N (Pos.of_uint d).
Proof.
  unfold JS.digitsValue. fold step.
  induction d; [reflexivity|..];
    unfold chars in *;
    cbn [NilEmpty.string_of_uint list_ascii_of_string fold_left Pos.of_uint];
    try exact IHd; apply (numeral_value_from d).
Qed.

Lemma numeral_colon_free d :
  JS.includes (NilEmpty.string_of_uint d) ":" = false.
Proof.
  induction d; [reflexivity|..]; cbn [NilEmpty.string_of_uint];
    rewrite includes_cons, IHd; reflexivity.
Qed.

(** What [parseFloat] does with a string that begins with a digit: no
    white space to drop, no sign, not [Infinity]. *)
Lemma parseFloat_from_digit c r :
  JS.isDigit c = true ->
  JS.parseFloat (String c r) =
  let '(ip, s2) := JS.spanDigits (String c r) in
  let '(fp, s3) :=
    match s2 with
    | String "." q => JS.spanDigits q
    | _ => ([], s2)
    end in
  match ip, fp with
  | [], [] => JS.NaN
  | _, _ =>
      let t := JS.exponentPart s3 - Z.of_nat (List.length fp) in
      match JS.digitsValue (ip ++ fp) with
      | Zpos m => JS.ofDecimal false m t
      | _ => S754_zero false
      end
  end.
Proof.
  destruct c as [[] [] [] [] [] [] [] []]; try discriminate; intros _;
    destruct r as [|c2 [|c3 r3]]; reflexivity.
Qed.

Lemma ofDecimal_units m : JS.ofDecimal false m 0 = JS.ofZ (Zpos m).
Proof.
  unfold JS.ofDecimal, JS.ofZ. change (0 <=? 0) with true. cbv iota.
  change (cond_Zopp false (Zpos m * 10 ^ 0)) with (Zpos m * 1).
  rewrite Z.mul_1_r. reflexivity.
Qed.

Lemma parseFloat_numeral d :
  JS.parseFloat (NilZero.string_of_uint d) = JS.ofZ (Z.of_N (N.of_uint d)).
Proof.
  destruct d as [|d|d|d|d|d|d|d|d|d|d]; [reflexivity|..];
    cbn [NilZero.string_of_uint];
    match goal with
    | |- context [NilEmpty.string_of_uint ?u] =>
        pose proof (spanDigits_numeral u) as Sp;
        pose proof (numeral_value u) as V
    end;
    unfold chars in Sp, V;
    cbn [NilEmpty.string_of_uint list_ascii_of_string] in Sp, V |- *;
    rewrite parseFloat_from_digit by reflexivity;
    rewrite Sp; cbv zeta iota beta;
    rewrite app_nil_r, V;
    change (JS.exponentPart EmptyString - Z.of_nat (@List.length ascii []))
      with 0;
    unfold N.of_uint;
    match goal with
    | |- context [Pos.of_uint ?u] => destruct (Pos.of_uint u) as [|m]
    end; try reflexivity;
    cbn [Z.of_N]; apply ofDecimal_units.
Qed.

End Numerals.

(** X10.  The decimal numeral of a whole number of seconds, as a
    timecode string, converts to that number (the binary64 value nearest
    to it): printing a non-negative integer and parsing it back loses
    nothing. *)
Theorem timeToSecs_reads_numerals (n : Z) :
  0 <= n ->
  JS.parseFloat (JS.decimal n) = JS.ofZ n
  /\ timeToSecs (TimeStr (JS.decimal n)) = JS.ofZ n.
Proof.
  intros Hn.
  assert (P : JS.parseFloat (JS.decimal n) = JS.ofZ n).
  { unfold JS.decimal. rewrite parseFloat_numeral, DecimalN.Unsigned.of_to.
    rewrite Z2N.id by exact Hn. reflexivity. }
  split; [exact P|].
  rewrite timeToSecs_colon_free; [exact P|].
  unfold colonFree, JS.decimal, NilZero.string_of_uint.
  destruct (N.to_uint (Z.to_N n)) eqn:E; [reflexivity|..];
    rewrite <- E; apply numeral_colon_free.
Qed.

Lemma timeToSecs_reads_numerals_witness :
  timeToSecs (TimeStr "86399") = JS.ofZ 86399.
Proof.
  apply (proj2 (timeToSecs_reads_numerals 86399 ltac:(lia))).
Defined.

(** ** Volume and mute *)

(** X11.  When the player's volume and mute cells agree with the media
    element, they still agree after a volume change and after a mute
    toggle, and neither handler touches the element's time or duration. *)
Theorem sound_controls_stay_in_step :
  forall v st, inStep v st ->
    (forall x, exists v',
        fst (handleVolumeChange x (Some v) st) = Some v'
        /\ inStep v' (snd (handleVolumeChange x (Some v) st))
        /\ currentTime v' = currentTime v
        /\ mediaDuration v' = mediaDuration v)
    /\ exists v',
        fst (toggleMute (Some v) st) = Some v'
        /\ inStep v' (snd (toggleMute (Some v) st))
        /\ currentTime v' = currentTime v
        /\ mediaDuration v' = mediaDuration v.
Proof.
  intros v st [V M]. split.
  - intros x. unfold handleVolumeChange.
    destruct (isPositive x && isMuted st); eexists; split; try reflexivity;
      repeat split; simpl; auto.
  - unfold toggleMute.
    destruct (negb (negb (mediaMuted v)) && isZero (volume st));
      eexists; split; try reflexivity; repeat split; simpl; auto.
Qed.

Lemma sound_controls_stay_in_step_witness :
  exists v',
    fst (toggleMute (Some silentElement) silentPlayer) = Some v'
    /\ inStep v' (snd (toggleMute (Some silentElement) silentPlayer))
    /\ currentTime v' = currentTime silentElement
    /\ mediaDuration v' = mediaDuration silentElement.
Proof.
  apply (proj2 (sound_controls_stay_in_step silentElement silentPlayer
                  (conj eq_refl eq_refl))).
Defined.

Lemma positive_is_not_zero x : isPositive x = true -> isZero x = false.
Proof.
  unfold isPositive, isZero, JS.ltb, SFltb, SFeqb.
  destruct x as [[]|[]| |[] m e]; simpl; try discriminate; reflexivity.
Qed.

(** X12.  Unmuting is audible: a toggle on a muted element leaves the
    player unmuted with a volume other than 0 (a volume of 0 becomes 1),
    and a change of the volume to a positive value, with the element
    present, leaves it unmuted as well; in both cases the button does not
    show the muted icon. *)
Theorem unmuting_is_audible :
  (forall v st, mediaMuted v = true ->
     let st' := snd (toggleMute (Some v) st) in
     isMuted st' = false /\ isZero (volume st') = false
     /\ volumeIcon st' <> "volume_off"
     /\ sliderValue st' = volume st')
  /\ (forall x v st, isPositive x = true ->
        let st' := snd (handleVolumeChange x (Some v) st) in
        isMuted st' = false /\ volume st' = x
        /\ volumeIcon st' <> "volume_off").
Proof.
  assert (Icon : forall st',
            isMuted st' = false -> isZero (volume st') = false ->
            volumeIcon st' <> "volume_off").
  { intros st' M Z. unfold volumeIcon. rewrite M, Z. cbn [orb].
    destruct (JS.ltb _ _); discriminate. }
  assert (Slider : forall st', isMuted st' = false ->
            sliderValue st' = volume st').
  { intros st' M. unfold sliderValue. rewrite M. reflexivity. }
  split.
  - intros v st Mv st'.
    assert (H : isMuted st' = false /\ isZero (volume st') = false).
    { subst st'. unfold toggleMute. rewrite Mv. cbn [negb andb].
      destruct (isZero (volume st)) eqn:Z; simpl; auto. }
    destruct H as [M Z]. auto.
  - intros x v st Px st'.
    assert (H : isMuted st' = false /\ volume st' = x).
    { subst st'. unfold handleVolumeChange. rewrite Px. cbn [andb].
      destruct (isMuted st) eqn:M; simpl; auto. }
    destruct H as [M V]. repeat split; auto.
    apply Icon; [exact M|]. rewrite V. apply positive_is_not_zero. exact Px.
Qed.

Lemma unmuting_is_audible_witness :
  volume (snd (toggleMute (Some silentElement) silentPlayer)) = JS.ofZ 1
  /\ volumeIcon (snd (toggleMute (Some silentElement) silentPlayer))
     <> "volume_off".
Proof.
  split; [reflexivity|].
  apply (proj1 unmuting_is_audible silentElement silentPlayer eq_refl).
Defined.

(** ** Upload progress *)

Lemma ladder_step p :
  In p ladder ->
  In (mathMin (JS.add p (JS.ofZ 5)) (JS.ofZ 95)) ladder
  /\ numLe p (mathMin (JS.add p (JS.ofZ 5)) (JS.ofZ 95)).
Proof.
  unfold ladder. cbn [map In]. intros H.
  repeat (destruct H as [<-|H]; [split; vm_compute; auto 20|]).
  contradiction.
Qed.

Lemma ladder_below_95 p : In p ladder -> numLe p (JS.ofZ 95).
Proof.
  unfold ladder. cbn [map In]. intros H.
  repeat (destruct H as [<-|H]; [vm_compute; reflexivity|]). contradiction.
Qed.

Lemma pollLoop_climbs polls : forall current p,
  In p ladder ->
  exists climb,
    progressOf (fst (pollLoop current polls p))
    = (climb ++ closingReport (snd (pollLoop current polls p)))%list
    /\ Forall (fun q => In q ladder) climb
    /\ Sorted numLe (p :: climb).
Proof.
  induction polls as [|next rest IH]; intros current p Hp;
    destruct current as [state|message]; cbn [pollLoop].
  - destruct (String.eqb state "PROCESSING").
    + destruct (ladder_step p Hp) as [In' Le].
      eexists [_]. split; [reflexivity|].
      split; [constructor; [exact In' | constructor]|].
      constructor; [constructor; constructor | constructor; exact Le].
    + destruct (String.eqb state "FAILED"); exists [];
        split; try reflexivity; split; repeat constructor.
  - exists []. split; [reflexivity|]. split; repeat constructor.
  - destruct (String.eqb state "PROCESSING").
    + destruct (ladder_step p Hp) as [In' Le].
      destruct (IH next _ In') as [climb [E [F S]]].
      destruct (pollLoop next rest _) as [events e]. cbn [fst snd] in *.
      eexists (_ :: climb). split; [cbn [progressOf]; rewrite E; reflexivity|].
      split; [constructor; [exact In' | exact F]|].
      constructor; [exact S | constructor; exact Le].
    + destruct (String.eqb state "FAILED"); exists [];
        split; try reflexivity; split; repeat constructor.
  - exists []. split; [reflexivity|]. split; repeat constructor.
Qed.

(** X13.  The progress [uploadFile] reports is 10 and, once the upload is
    accepted, 50, then, while the file is processing, values that never go
    down and never pass 95, and at the end 100 when the file is ready or 0
    when its processing failed; a rejected request, or polls still to
    come, add no report. *)
Theorem upload_progress_only_climbs :
  (forall first polls, exists climb,
     progressOf (fst (uploadFile Accepted first polls))
     = ([JS.ofZ 10; JS.ofZ 50] ++ climb
        ++ closingReport (snd (uploadFile Accepted first polls)))%list
     /\ Sorted numLe (JS.ofZ 10 :: JS.ofZ 50 :: climb)
     /\ Forall (fun q => numLe q (JS.ofZ 95)) climb)
  /\ (forall message first polls,
        progressOf (fst (uploadFile (SendRejected message) first polls))
        = [JS.ofZ 10]).
Proof.
  split; [|reflexivity]. intros first polls.
  assert (H50 : In (JS.ofZ 50) ladder) by (left; reflexivity).
  destruct (pollLoop_climbs polls first (JS.ofZ 50) H50) as [climb [E [F S]]].
  exists climb. unfold uploadFile.
  destruct (pollLoop first polls (JS.ofZ 50)) as [events e].
  cbn [fst snd] in *. split; [cbn [progressOf app]; rewrite E; reflexivity|].
  split.
  - constructor; [exact S|]. constructor. vm_compute. reflexivity.
  - eapply Forall_impl; [|exact F]. intros q. apply ladder_below_95.
Qed.

(** ** Uploads *)

Lemma upload_events_keep cells events :
  let c := fold_left onUploadEvent events cells in
  vidUrl c = vidUrl cells /\ videoError c = videoError cells
  /\ isLoadingVideo c = isLoadingVideo cells
  /\ mediaType c = mediaType cells
  /\ videoDuration c = videoDuration cells.
Proof.
  revert cells. induction events as [|ev events IH]; intros cells; cbn zeta.
  - repeat split.
  - cbn [fold_left].
    destruct (IH (onUploadEvent cells ev)) as [A [B [C [D E]]]].
    destruct ev; simpl in *; repeat split; congruence.
Qed.

(** What the steps of an upload read and write: the file cell and the
    upload cells. *)
Lemma resume_keeps_file k w st :
  App.file (fst (App.resume k w st)) = App.file st.
Proof.
  unfold App.resume, App.afterLoop, App.finally, App.catch,
    App.handleResponse.
  destruct (App.phase k), w as [[resp|message]|]; try reflexivity;
    repeat match goal with
      | |- context [if ?b then _ else _] => destruct b
      | |- context [match ?x with _ => _ end] => destruct x
      end; reflexivity.
Qed.

Lemma request_step_keeps ev st c :
  isUploadStep ev = false ->
  uploadView (appStep (st, c) ev) = uploadView (st, c).
Proof.
  destruct ev; try discriminate; intros _; unfold uploadView;
    cbn [appStep fst snd].
  - unfold App.onModeSelect.
    destruct (App.file st) eqn:F; simpl; rewrite ?F; reflexivity.
  - rewrite resume_keeps_file. reflexivity.
  - reflexivity.
Qed.

Lemma upload_step_view ev s1 s2 :
  isUploadStep ev = true -> uploadView s1 = uploadView s2 ->
  uploadView (appStep s1 ev) = uploadView (appStep s2 ev).
Proof.
  destruct s1 as [st1 c1], s2 as [st2 c2]. unfold uploadView.
  cbn [fst snd]. intros U [= F ->].
  destruct ev as [[f|] newUrl|report|e res| | |]; try discriminate;
    cbn [appStep beginUpload fst snd].
  - destruct (negb (isVideoFile f) && negb (isAudioFile f));
      cbn [fst snd]; [rewrite F|]; reflexivity.
  - rewrite F. reflexivity.
  - rewrite F. reflexivity.
  - destruct e; cbn [endUpload fst snd]; rewrite ?F; reflexivity.
Qed.

(** The file cell and the upload cells go through a run as they go
    through its upload steps alone. *)
Lemma run_view trace : forall s1 s2,
  uploadView s1 = uploadView s2 ->
  uploadView (appRun trace s1)
  = uploadView (appRun (filter isUploadStep trace) s2).
Proof.
  unfold appRun.
  induction trace as [|ev trace IH]; intros s1 s2 E; [exact E|].
  cbn [fold_left filter]. destruct (isUploadStep ev) eqn:U.
  - cbn [fold_left]. apply IH. apply upload_step_view; assumption.
  - apply IH. destruct s1 as [st1 c1].
    rewrite request_step_keeps by exact U. exact E.
Qed.

Lemma reports_run events : forall st c,
  appRun (map UploadReports events) (st, c)
  = (st, fold_left onUploadEvent events c).
Proof.
  unfold appRun. induction events as [|ev events IH]; intros st c;
    [reflexivity|].
  cbn [map fold_left appStep]. apply IH.
Qed.

(** An upload that runs alone, from the choice of the file to its end. *)
Lemma upload_alone f newUrl res sent first polls st c :
  (isVideoFile f || isAudioFile f) = true ->
  let '(st', c') :=
    appRun (handleFileUpload (Some f) newUrl res sent first polls) (st, c) in
  App.results st' = (None, None, None)
  /\ vidUrl c' = Some newUrl
  /\ (snd (uploadFile sent first polls) <> StillProcessing ->
      isLoadingVideo c' = false /\ uploadProgress c' = JS.zero)
  /\ (snd (uploadFile sent first polls) = Uploaded ->
      App.file st' = Some res /\ videoError c' = None)
  /\ (snd (uploadFile sent first polls) <> Uploaded ->
      App.file st' = None
      /\ (snd (uploadFile sent first polls) <> StillProcessing ->
          videoError c' <> None)).
Proof.
  intros T. unfold handleFileUpload.
  apply orb_true_iff in T.
  assert (V : negb (isVideoFile f) && negb (isAudioFile f) = false)
    by (destruct T as [-> | ->]; [reflexivity | apply andb_false_r]).
  rewrite V.
  destruct (uploadFile sent first polls) as [events e]. cbn [snd].
  unfold appRun. cbn [fold_left appStep beginUpload]. rewrite V.
  cbn [fst]. rewrite fold_left_app. fold (appRun (map UploadReports events)).
  rewrite reports_run. cbn [fold_left appStep].
  match goal with
  | |- context [fold_left onUploadEvent events ?c1] =>
      destruct (upload_events_keep c1 events) as [U [E _]];
      set (c2 := fold_left onUploadEvent events c1) in *
  end.
  cbn [vidUrl videoError] in U, E.
  destruct e as [| |message|]; cbn [endUpload]; repeat split; simpl;
    try assumption; try congruence; try discriminate.
Qed.

(** X14.  An upload of a video or audio file, with no other upload
    beside it, that has ended, whichever way, leaves the loading flag
    cleared, the progress at 0 and the player on the new object URL,
    however the steps of requests (issues, resumptions, cancellations)
    are interleaved with its own; the file cell holds the uploaded file
    exactly when the upload succeeded, and otherwise is empty with an
    error message set.  When no step of a request runs in between, the
    three results are cleared as well.  With other uploads running, the
    end of any upload still clears the loading flag and the progress at
    that moment.  A file of another type changes nothing but the error
    message, and no file changes nothing at all. *)
Theorem upload_settles_loading_and_progress :
  (forall f newUrl res sent first polls trace st c,
     (isVideoFile f || isAudioFile f) = true ->
     snd (uploadFile sent first polls) <> StillProcessing ->
     filter isUploadStep trace
     = handleFileUpload (Some f) newUrl res sent first polls ->
     let '(st', c') := appRun trace (st, c) in
     isLoadingVideo c' = false /\ uploadProgress c' = JS.zero
     /\ vidUrl c' = Some newUrl
     /\ (snd (uploadFile sent first polls) = Uploaded ->
         App.file st' = Some res /\ videoError c' = None)
     /\ (snd (uploadFile sent first polls) <> Uploaded ->
         App.file st' = None /\ videoError c' <> None))
  /\ (forall f newUrl res sent first polls st c,
        (isVideoFile f || isAudioFile f) = true ->
        App.results
          (fst (appRun (handleFileUpload (Some f) newUrl res sent first polls)
                  (st, c)))
        = (None, None, None))
  /\ (forall trace e res s,
        e <> StillProcessing ->
        let '(st', c') := appRun (trace ++ [UploadEnds e res]) s in
        isLoadingVideo c' = false /\ uploadProgress c' = JS.zero)
  /\ (forall f newUrl res sent first polls st c,
        (isVideoFile f || isAudioFile f) = false ->
        appRun (handleFileUpload (Some f) newUrl res sent first polls) (st, c)
        = (st, setVideoError (Some invalidFileType) c))
  /\ (forall newUrl res sent first polls st c,
        appRun (handleFileUpload None newUrl res sent first polls) (st, c)
        = (st, c)).
Proof.
  split; [|split; [|split; [|split]]].
  - intros f newUrl res sent first polls trace st c T NotPending Own.
    pose proof (run_view trace (st, c) (st, c) eq_refl) as View.
    rewrite Own in View.
    pose proof (upload_alone f newUrl res sent first polls st c T) as Alone.
    destruct (appRun (handleFileUpload _ _ _ _ _ _) _) as [st1 c1].
    destruct (appRun trace (st, c)) as [st' c'].
    unfold uploadView in View. cbn [fst snd] in View.
    injection View as -> ->.
    destruct Alone as [_ [U [Ended [Ok Failed]]]].
    destruct (Ended NotPending) as [L P].
    repeat split; try assumption; try (apply Ok; assumption).
    + apply Failed; assumption.
    + apply Failed; assumption.
  - intros f newUrl res sent first polls st c T.
    pose proof (upload_alone f newUrl res sent first polls st c T) as Alone.
    destruct (appRun _ _) as [st' c']. apply Alone.
  - intros trace e res s NotPending. unfold appRun.
    rewrite fold_left_app. destruct (fold_left appStep trace s) as [st c].
    cbn [fold_left appStep]. destruct e; try contradiction; simpl; auto.
  - intros f newUrl res sent first polls st c T.
    apply orb_false_iff in T as [V A].
    unfold handleFileUpload, appRun. rewrite V, A.
    cbn [negb andb fold_left appStep beginUpload]. rewrite V, A.
    reflexivity.
  - reflexivity.
Qed.

Lemma upload_settles_loading_and_progress_witness :
  let '(st', c') :=
    appRun answeredWhileUploading
      (fst (App.onModeSelect 1000 "Paragraph" readyToAsk), noUpload) in
  isLoadingVideo c' = false /\ uploadProgress c' = JS.zero
  /\ App.file st' = Some uploadedClip.
Proof.
  pose proof (proj1 upload_settles_loading_and_progress clip "blob:1"
                uploadedClip Accepted (InState "PROCESSING")
                [InState "PROCESSING"; InState "ACTIVE"]
                answeredWhileUploading
                (fst (App.onModeSelect 1000 "Paragraph" readyToAsk)) noUpload
                eq_refl ltac:(discriminate) eq_refl) as H.
  destruct (appRun _ _) as [st' c'].
  destruct H as [L [P [_ [Ok _]]]].
  split; [exact L|]. split; [exact P|]. apply (Ok eq_refl).
Defined.

(** X15.  Starting an upload does not supersede a pending request: the
    latest identifier stays what it was, so the response to a request made
    for the previous file is still handled and shown after the new file
    was chosen, while the file cell is empty. *)
Theorem upload_does_not_supersede_request :
  forall f newUrl st c k resp,
    (isVideoFile f || isAudioFile f) = true ->
    App.latestRequestRef st = App.requestId k ->
    App.phase k = App.AwaitingContent ->
    App.responds resp = true ->
    let st' := fst (fst (beginUpload (Some f) newUrl st c)) in
    App.file st' = None
    /\ App.results st' = (None, None, None)
    /\ App.latestRequestRef st' = App.latestRequestRef st
    /\ App.resume k (App.Content (App.Resolved resp)) st'
       = (App.setIsLoading false (App.handleResponse resp st'), None).
Proof.
  intros f newUrl st c k resp T L P R. unfold beginUpload.
  apply orb_true_iff in T.
  assert (V : negb (isVideoFile f) && negb (isAudioFile f) = false)
    by (destruct T as [-> | ->]; [reflexivity | apply andb_false_r]).
  rewrite V. cbn [fst]. repeat split.
  apply resume_latest; auto.
Qed.

Lemma upload_does_not_supersede_request_witness :
  App.results
    (fst (App.resume (firstAttempt 1000)
            (App.Content (App.Resolved (textOnly "About the old file.")))
            (fst (fst (beginUpload (Some clip) "blob:2"
                         (fst (App.onModeSelect 1000 "Paragraph" readyToAsk))
                         noUpload)))))
  = (None, Some "About the old file.", None).
Proof.
  destruct (upload_does_not_supersede_request clip "blob:2"
              (fst (App.onModeSelect 1000 "Paragraph" readyToAsk)) noUpload
              (firstAttempt 1000) (textOnly "About the old file.")
              eq_refl eq_refl eq_refl eq_refl) as [_ [_ [_ H]]].
  rewrite H. reflexivity.
Defined.

(** ** The name of the downloaded file *)

Lemma keepNameChars_nameChars s : nameChars (keepNameChars s).
Proof.
  unfold nameChars. induction s as [|c r IH]; [constructor|].
  cbn [keepNameChars]. destruct (isNameChar c) eqn:E; [|exact IH].
  cbn [list_ascii_of_string]. constructor; assumption.
Qed.

Lemma toLowerCase_nameChar c r :
  isNameChar c = true -> toLowerCase (String c r) = String c (toLowerCase r).
Proof.
  destruct c as [[] [] [] [] [] [] [] []]; try discriminate; intros _;
    destruct r as [|c2 [|c3 r3]]; reflexivity.
Qed.

Lemma replaceSpaces_nameChar b c r :
  isNameChar c = true ->
  replaceSpaces b (String c r) = String c (replaceSpaces false r).
Proof.
  destruct c as [[] [] [] [] [] [] [] []]; try discriminate; intros _;
    destruct r as [|c2 [|c3 r3]]; reflexivity.
Qed.

Lemma clean_name_is_kept s :
  nameChars s ->
  keepNameChars (replaceSpaces false (toLowerCase s)) = s.
Proof.
  unfold nameChars. induction s as [|c r IH]; [reflexivity|].
  cbn [list_ascii_of_string]. intros F. inversion F as [|? ? Hc Hr]; subst.
  rewrite toLowerCase_nameChar, replaceSpaces_nameChar by exact Hc.
  cbn [keepNameChars]. rewrite Hc, (IH Hr). reflexivity.
Qed.

(** X16.  The base name of the downloaded subtitle file holds only small
    letters, digits and hyphens, whatever the active mode is called; it is
    [captions] when no mode is active or its name is empty; a non-empty
    name that is already of that form is kept as it is; and the modes of
    the application that offer the download give the eight names listed. *)
Theorem download_name_is_plain :
  (forall activeMode, nameChars (baseName activeMode))
  /\ baseName None = "captions" /\ baseName (Some "") = "captions"
  /\ (forall c r, nameChars (String c r) ->
        baseName (Some (String c r)) = String c r)
  /\ map (fun mode => srtFileName (Some mode))
       ["A/V captions"; "Simple Captions"; "Paragraph"; "Key moments";
        "AI Cut"; "B-Roll Ideas"; "Sound Cues"; "Custom"]
     = ["av-captions.srt"; "simple-captions.srt"; "paragraph.srt";
        "key-moments.srt"; "ai-cut.srt"; "b-roll-ideas.srt";
        "sound-cues.srt"; "custom.srt"].
Proof.
  split; [|split; [reflexivity | split; [reflexivity | split]]].
  - intros [[|c r]|]; try (repeat constructor; reflexivity).
    apply keepNameChars_nameChars.
  - intros c r F. apply (clean_name_is_kept (String c r) F).
  - vm_compute. reflexivity.
Qed.

Lemma download_name_is_plain_witness :
  baseName (Some "key-moments") = "key-moments".
Proof.
  apply (proj1 (proj2 (proj2 (proj2 download_name_is_plain)))).
  repeat constructor.
Defined.

(** ** Stamps and clocks of whole seconds *)

Lemma below_spec n f :
  below n f = true -> forall t, 0 <= t < Z.of_nat n -> f t = true.
Proof.
  induction n as [|n IH]; intros B t Ht; [lia|].
  cbn [below] in B. apply andb_prop in B as [Here Before].
  destruct (Z.eq_dec t (Z.of_nat n)) as [->|NE]; [exact Here|].
  apply IH; [exact Before | lia].
Qed.

Lemma sameNumber_eq x y : sameNumber x y = true -> x = y.
Proof.
  destruct x as [a|a| |a m e], y as [b|b| |b m' e']; simpl;
    try discriminate; try reflexivity.
  - intros H. apply Bool.eqb_prop in H. congruence.
  - intros H. apply Bool.eqb_prop in H. congruence.
  - intros H. apply andb_prop in H as [H He]. apply andb_prop in H as [Hs Hm].
    apply Bool.eqb_prop in Hs. apply Pos.eqb_eq in Hm. apply Z.eqb_eq in He.
    congruence.
Qed.

Lemma stamps_checked : below (Z.to_nat oneHour) stampOk = true.
Proof. vm_cast_no_check (eq_refl true). Qed.

Lemma clocks_checked : below (Z.to_nat oneHour) clockOk = true.
Proof. vm_cast_no_check (eq_refl true). Qed.

(** X17.  For every whole number of seconds below one hour, the
    subtitle stamp is hours, minutes and seconds of integer division, two
    digits each, with [,000] after them, and reading the stamp back with
    [timeToSecs] gives the number of seconds again. *)
Theorem srt_stamp_of_whole_seconds (t : Z) :
  0 <= t < oneHour ->
  formatSrtTime (JS.ofZ t) = stampOf t
  /\ timeToSecs (TimeStr (formatSrtTime (JS.ofZ t))) = JS.ofZ t.
Proof.
  intros Ht.
  pose proof (below_spec _ _ stamps_checked t) as H.
  rewrite Z2Nat.id in H by (unfold oneHour; lia). specialize (H Ht).
  unfold stampOk in H. cbv zeta in H. apply andb_prop in H as [S R].
  split; [apply String.eqb_eq; exact S | apply sameNumber_eq; exact R].
Qed.

Lemma srt_stamp_of_whole_seconds_witness :
  formatSrtTime (JS.ofZ 3599) = "00:59:59,000"
  /\ timeToSecs (TimeStr (formatSrtTime (JS.ofZ 3599))) = JS.ofZ 3599.
Proof.
  apply (srt_stamp_of_whole_seconds 3599). unfold oneHour. lia.
Defined.

(** X18.  For every whole number of seconds below one hour, the
    on-screen clock is the minutes of integer division, a colon and the
    seconds in two digits, and reading the clock back with [timeToSecs]
    gives the number of seconds again. *)
Theorem clock_of_whole_seconds (t : Z) :
  0 <= t < oneHour ->
  formatTime (JS.ofZ t) = clockOf t
  /\ timeToSecs (TimeStr (formatTime (JS.ofZ t))) = JS.ofZ t.
Proof.
  intros Ht.
  pose proof (below_spec _ _ clocks_checked t) as H.
  rewrite Z2Nat.id in H by (unfold oneHour; lia). specialize (H Ht).
  unfold clockOk in H. cbv zeta in H. apply andb_prop in H as [S R].
  split; [apply String.eqb_eq; exact S | apply sameNumber_eq; exact R].
Qed.

Lemma clock_of_whole_seconds_witness :
  formatTime (JS.ofZ 2703) = "45:03"
  /\ timeToSecs (TimeStr (formatTime (JS.ofZ 2703))) = JS.ofZ 2703.
Proof.
  apply (clock_of_whole_seconds 2703). unfold oneHour. lia.
Defined.

(** ** Dragging the scrubber *)

Lemma updateTime_keeps_duration video timecodeList st :
  duration (updateTime video timecodeList st) = duration st.
Proof.
  unfold updateTime. destruct video as [v|]; [|reflexivity].
  destruct (negb (isScrubbing st)), timecodeList as [l|]; try reflexivity.
  all: destruct (0 <? List.length l)%nat; try reflexivity.
  all: destruct (findBestIndex l (currentTime v)); reflexivity.
Qed.

Lemma drag_holds events : forall st,
  isScrubbing st = true ->
  scrubberTime (drag events st) = lastMoved events (scrubberTime st)
  /\ isScrubbing (drag events st) = true
  /\ duration (drag events st) = duration st.
Proof.
  unfold drag, lastMoved.
  induction events as [|[video tl|x video] events IH]; intros st Sc;
    [auto| |]; cbn [fold_left dragStep].
  - destruct (updateTime_while_scrubbing video tl st Sc) as [P F].
    destruct (IH _ F) as [P' [F' D']].
    rewrite P', P, D', updateTime_keeps_duration. auto.
  - destruct (IH (snd (onScrub x video st)) Sc) as [P' [F' D']].
    rewrite P', D'. auto.
Qed.

(** X19.  During a drag of the scrubber, from the pointer going down,
    the scrubber shows the value of the last move of the slider, or the
    value it had while there was no move, whatever time-updates and moves
    are interleaved, and also when the write of a move to the element
    throws; the scrubbing flag stays set and the stored duration is kept.
    After the pointer goes up, the next time-update that finds the element
    sets the scrubber from the element again.  A move whose product with
    the stored duration is not a finite number throws at the write to the
    element, after the scrubber was set: on media of unknown length,
    whose duration is Infinity and is stored as it is, every move does. *)
Theorem scrub_holds_until_pointer_up :
  (forall st events,
     let during := drag events (onPointerDown st) in
     scrubberTime during = lastMoved events (scrubberTime st)
     /\ isScrubbing during = true
     /\ duration during = duration st
     /\ (forall w timecodeList,
           scrubberTime
             (updateTime (Some w) timecodeList (onPointerUp during))
           = playedFraction w))
  /\ (forall x v st,
        isFinite (JS.mul x (duration st)) = false ->
        onScrub x (Some v) st = (Throws, setScrubberTime x st))
  /\ (forall st, duration (updateDuration (Some liveStream) st) = JS.Infinity)
  /\ (forall x st, JS.leb JS.zero x = true ->
        fst (onScrub x (Some liveStream)
               (updateDuration (Some liveStream) st))
        = Throws).
Proof.
  split; [|split; [|split]].
  - intros st events during.
    destruct (drag_holds events (onPointerDown st) eq_refl) as [P [F D]].
    fold during in P, F, D.
    split; [exact P|]. split; [exact F|]. split; [exact D|].
    intros w tl. unfold updateTime.
    cbn [isScrubbing onPointerUp setIsScrubbing negb].
    destruct tl as [l|]; [|reflexivity].
    destruct (0 <? List.length l)%nat; [|reflexivity].
    destruct (findBestIndex l (currentTime w)); reflexivity.
  - intros x v st F. unfold onScrub, setCurrentTime. rewrite F. reflexivity.
  - reflexivity.
  - intros x st Pos. unfold onScrub, setCurrentTime.
    cbn [updateDuration liveStream mediaDuration JS.or JS.truthy
         JS.Infinity duration setDuration fst].
    destruct x as [[]|[]| |[] m e]; try discriminate; reflexivity.
Qed.

Lemma scrub_holds_until_pointer_up_witness :
  onScrub JS.zero (Some liveStream)
    (updateDuration (Some liveStream) scrubbingAtSilence)
  = (Throws,
     setScrubberTime JS.zero
       (updateDuration (Some liveStream) scrubbingAtSilence)).
Proof.
  apply (proj1 (proj2 scrub_holds_until_pointer_up)). reflexivity.
Defined.

(** ** Requests issued at different readings *)

Lemma resume_latest_rejected k message st :
  App.latestRequestRef st = App.requestId k ->
  App.phase k = App.AwaitingContent ->
  App.resume k (App.Content (App.Rejected (Some message))) st
  = (App.setIsLoading false (App.setApiError (Some message) st), None).
Proof.
  intros L P. unfold App.resume, App.finally, App.catch. rewrite P.
  rewrite L, Z.eqb_refl. cbn [App.latestRequestRef App.setApiError
    App.setResults]. rewrite L, Z.eqb_refl. reflexivity.
Qed.

(** X21.  When a request A is issued and a request B after it, before A
    resolves, and the two read different values from [Date.now()], then
    nothing that resumes A afterwards changes the state, so the timecode
    list, the text response and the error message stay as B's issue left
    them (all none); B's result, arriving after, is applied: the
    sanitized timecodes of a [set_timecodes] call, the text of a text
    response, or the message of a rejection. *)
Theorem superseded_response_is_discarded :
  forall st tA tB modeA modeB,
    App.file st <> None -> tA <> tB ->
    exists sA kA sB kB,
      App.onModeSelect tA modeA st = (sA, Some kA)
      /\ App.onModeSelect tB modeB sA = (sB, Some kB)
      /\ App.results sB = (None, None, None)
      /\ (forall wakesA, fst (App.drive kA wakesA sB) = sB)
      /\ (forall wakesA respB, App.responds respB = true ->
            App.resume kB (App.Content (App.Resolved respB))
              (fst (App.drive kA wakesA sB))
            = (App.setIsLoading false (App.handleResponse respB sB), None))
      /\ (forall wakesA timecodes,
            App.results
              (fst (App.resume kB
                      (App.Content (App.Resolved (timecodesCall timecodes)))
                      (fst (App.drive kA wakesA sB))))
            = (Some (map App.sanitize timecodes), None, None))
      /\ (forall wakesA c t,
            App.results
              (fst (App.resume kB
                      (App.Content (App.Resolved (textOnly (String c t))))
                      (fst (App.drive kA wakesA sB))))
            = (None, Some (String c t), None))
      /\ (forall wakesA message,
            let refused :=
              fst (App.resume kB (App.Content (App.Rejected (Some message)))
                     (fst (App.drive kA wakesA sB))) in
            App.results refused = (None, None, Some message)
            /\ App.isLoading refused = false).
Proof.
  intros st tA tB modeA modeB F NE.
  destruct (onModeSelect_issues tA modeA st F) as [EA [FA _]].
  set (sA := fst (App.onModeSelect tA modeA st)) in *.
  destruct (onModeSelect_issues tB modeB sA) as [EB [_ [LB RB]]];
    [congruence|].
  set (sB := fst (App.onModeSelect tB modeB sA)) in *.
  exists sA, (firstAttempt tA), sB, (firstAttempt tB).
  assert (D : forall ws, fst (App.drive (firstAttempt tA) ws sB) = sB)
    by (intros ws; apply drive_stale; simpl; congruence).
  split; [exact EA|]. split; [exact EB|]. split; [exact RB|].
  split; [exact D|].
  assert (H : forall ws resp, App.responds resp = true ->
            App.resume (firstAttempt tB) (App.Content (App.Resolved resp))
              (fst (App.drive (firstAttempt tA) ws sB))
            = (App.setIsLoading false (App.handleResponse resp sB), None))
    by (intros ws resp R; rewrite D; apply resume_latest; auto).
  split; [exact H|].
  unfold App.results in *. injection RB as TL TR AE.
  split; [|split].
  - intros ws tcs. rewrite H by reflexivity. simpl. congruence.
  - intros ws c t. rewrite H by reflexivity. simpl. congruence.
  - intros ws message. cbn zeta. rewrite D.
    rewrite resume_latest_rejected by auto. simpl. split; congruence.
Qed.

Lemma superseded_response_is_discarded_witness :
  exists sA kA sB kB,
    App.onModeSelect 1000 "Key moments" readyToAsk = (sA, Some kA)
    /\ App.onModeSelect 1001 "Paragraph" sA = (sB, Some kB)
    /\ fst (App.drive kA [App.Content (App.Resolved (textOnly "late"))] sB)
       = sB.
Proof.
  destruct (superseded_response_is_discarded readyToAsk 1000 1001
              "Key moments" "Paragraph")
    as [sA [kA [sB [kB [HA [HB [_ [D _]]]]]]]].
  - discriminate.
  - lia.
  - exists sA, kA, sB, kB. split; [exact HA|]. split; [exact HB|]. apply D.
Defined.

(** ** The toolbar and the panel *)

Lemma drive_suspended wakes : forall k st,
  suspendedAt st k ->
  match App.drive k wakes st with
  | (st', Some _) => st' = st
  | (st', None) => App.isLoading st' = false /\ atMostOne (App.results st')
  end.
Proof.
  induction wakes as [|w wakes IH]; intros k st S; simpl; [reflexivity|].
  pose proof (resume_suspended k w st S) as H.
  destruct (App.resume k w st) as [st' [k'|]]; [|exact H].
  destruct H as [-> S']. apply IH. exact S'.
Qed.

(** X20.  From the issue of a request on, through whatever resumes it
    while it is the latest, the action toolbar is offered only when the
    panel is showing the text records it acts on: if the toolbar is
    shown, the request has ended, no error and no text response is set,
    and the panel renders the list (or the sentences) of exactly the
    records the toolbar exports. *)
Theorem toolbar_only_beside_its_records :
  forall st now mode wakes, App.file st <> None ->
    let final :=
      fst (App.drive (firstAttempt now) wakes
             (fst (App.onModeSelect now mode st))) in
    showActionToolbar final = true ->
    App.isLoading final = false
    /\ App.apiError final = None /\ App.textResponse final = None
    /\ textBasedTimecodes (App.timecodeList final) <> []
    /\ (renderContent final
        = ShowList (textBasedTimecodes (App.timecodeList final))
        \/ renderContent final
           = ShowSentences (textBasedTimecodes (App.timecodeList final))).
Proof.
  intros st now mode wakes F final Shown.
  destruct (onModeSelect_issues now mode st F) as [_ [_ [L R]]].
  assert (S0 : suspendedAt (fst (App.onModeSelect now mode st))
                 (firstAttempt now)).
  { repeat split; simpl; auto; discriminate. }
  pose proof (drive_suspended wakes _ _ S0) as H. fold final in H.
  unfold showActionToolbar in Shown.
  apply andb_prop in Shown as [Shown Chart].
  apply andb_prop in Shown as [Some_text Table].
  apply Nat.ltb_lt in Some_text.
  assert (Ended : App.isLoading final = false
                  /\ atMostOne (App.results final)).
  { subst final.
    destruct (App.drive (firstAttempt now) wakes
                (fst (App.onModeSelect now mode st))) as [st' [k'|]];
      cbn [fst] in *; [|exact H].
    subst st'. injection R as TL _ _. rewrite TL in Some_text.
    simpl in Some_text. lia. }
  destruct Ended as [Loaded One]. unfold App.results in One.
  unfold renderContent. rewrite Loaded, Table, Chart. cbn [negb].
  destruct (App.timecodeList final) as [l|]; [|simpl in Some_text; lia].
  destruct (App.apiError final), (App.textResponse final);
    try contradiction.
  repeat split; auto.
  - intros E. rewrite E in Some_text. simpl in Some_text. lia.
  - destruct (isListMode (App.activeMode final)); auto.
Qed.

Lemma toolbar_only_beside_its_records_witness :
  renderContent
    (fst (App.drive (firstAttempt 1000)
            [App.Content (App.Resolved (timecodesCall kitchenScenes))]
            (fst (App.onModeSelect 1000 "Key moments" readyToAsk))))
  = ShowList (textBasedTimecodes (Some kitchenScenes)).
Proof.
  destruct (toolbar_only_beside_its_records readyToAsk 1000 "Key moments"
              [App.Content (App.Resolved (timecodesCall kitchenScenes))]
              ltac:(discriminate) eq_refl) as [_ [_ [_ [_ [H|H]]]]].
  - exact H.
  - discriminate H.
Defined.
